(** * Invoice extraction service: flattening, batch processing, statistics

    A shallow embedding of [app.py] (the Flask application) and of the
    command-line variant [keep.py]: the JSON values the extraction service
    returns, the flattener [flatten_to_rows], the request handlers
    [upload_files], [process_files] and [get_data], and the properties of
    the specification that are stated about them.

    Python values are embedded as the inductive type [value]; a Python
    [dict] is an association list in insertion order, a [str] is a Rocq
    [string] (the embedding is exact for ASCII text), an [int] is a [Z] and
    a [float] is an IEEE-754 binary64 datum ([spec_float] at precision 53).
    A Python exception is the [Raise] outcome of the [result] monad. *)

From Stdlib Require Import ZArith Ascii SpecFloat Lia.
From stdpp Require Import base numbers list strings gmap.

#[local] Set Warnings "-register-all".
#[local] Open Scope Z_scope.

(** ** Exceptions and the error monad *)

Inductive exn : Type :=
| AttributeError
| TypeError
| ValueError
| OverflowError
| JSONDecodeError (msg : string)
| ServiceError (msg : string).

Inductive result (A : Type) : Type :=
| Ok (a : A)
| Raise (e : exn).
Arguments Ok {A} a.
Arguments Raise {A} e.

#[global] Instance result_ret : MRet result := fun _ a => Ok a.
#[global] Instance result_bind : MBind result := fun _ _ f m =>
  match m with
  | Ok a => f a
  | Raise e => Raise e
  end.

Definition is_ok {A} (m : result A) : bool :=
  match m with
  | Ok _ => true
  | Raise _ => false
  end.

Definition sum_Z (l : list Z) : Z := foldr Z.add 0 l.

(** ** Python values *)

Inductive value : Type :=
| VNone
| VBool (b : bool)
| VInt (z : Z)
| VFloat (f : spec_float)
| VStr (s : string)
| VList (l : list value)
| VDict (d : list (string * value)).

Abbreviation dict := (list (string * value)).

(** [d.get(k)]: the value of the first binding of [k]. *)
Fixpoint lookup_key (k : string) (d : dict) : option value :=
  match d with
  | [] => None
  | (k', v) :: d' => if String.eqb k k' then Some v else lookup_key k d'
  end.

(** [d.get(k, dflt)]. *)
Definition get (d : dict) (k : string) (dflt : value) : value :=
  default dflt (lookup_key k d).

(** Truth value of an object, as tested by [if x:] and [not x]. *)
Definition truthy (v : value) : bool :=
  match v with
  | VNone => false
  | VBool b => b
  | VInt z => negb (z =? 0)
  | VFloat (S754_zero _) => false
  | VFloat _ => true
  | VStr "" => false
  | VStr _ => true
  | VList [] => false
  | VList _ => true
  | VDict [] => false
  | VDict _ => true
  end.

(** The items a [for] loop visits: the elements of a list, the characters
    of a string, the keys of a dict; the other values are not iterable. *)
Definition py_iter (v : value) : result (list value) :=
  match v with
  | VList l => Ok l
  | VStr s => Ok ((fun c => VStr (String c "")) <$> String.list_ascii_of_string s)
  | VDict d => Ok ((fun kv => VStr kv.1) <$> d)
  | VNone | VBool _ | VInt _ | VFloat _ => Raise TypeError
  end.

(** ** Strings: the methods the application calls *)

Module Str.

(** [str.isspace] on ASCII characters. *)
Definition is_space (c : ascii) : bool :=
  let n := nat_of_ascii c in
  ((9 <=? n) && (n <=? 13) || (28 <=? n) && (n <=? 32))%nat.

Fixpoint lstrip (s : string) : string :=
  match s with
  | "" => ""
  | String c r => if is_space c then lstrip r else s
  end.

Definition rstrip (s : string) : string := String.rev (lstrip (String.rev s)).

(** [s.strip()]. *)
Definition strip (s : string) : string := rstrip (lstrip s).

(** [s.replace(old, new)] for a non-empty [old]: occurrences are replaced
    left to right and do not overlap; [skip] counts the characters of the
    occurrence just replaced that are still to be dropped. *)
Fixpoint replace_go (old new : string) (skip : nat) (s : string) : string :=
  match s with
  | "" => ""
  | String c r =>
      match skip with
      | S k => replace_go old new k r
      | O =>
          if String.prefix old s
          then new +:+ replace_go old new (String.length old - 1) r
          else String c (replace_go old new 0 r)
      end
  end.

Definition replace (old new s : string) : string := replace_go old new 0 s.

Definition lower_ascii (c : ascii) : ascii :=
  let n := nat_of_ascii c in
  if ((65 <=? n) && (n <=? 90))%nat then ascii_of_nat (n + 32) else c.

(** [s.lower()]. *)
Fixpoint lower (s : string) : string :=
  match s with
  | "" => ""
  | String c r => String (lower_ascii c) (lower r)
  end.

(** ['.' in s]. *)
Fixpoint has_dot (s : string) : bool :=
  match s with
  | "" => false
  | String c r => Ascii.eqb c "." || has_dot r
  end.

(** [s.rsplit('.', 1)]: split at the last dot, if there is one. *)
Fixpoint rsplit_dot (s : string) : list string :=
  match s with
  | "" => [""]
  | String c r =>
      match rsplit_dot r with
      | [a; b] => [String c a; b]
      | _ => if Ascii.eqb c "." then [""; r] else [s]
      end
  end.

End Str.

(** ** Flat rows *)

(** One row of the exported table: the dict literal of [flatten_to_rows],
    its seventeen keys in the order they are written. *)
Record row : Type := Row {
  Invoice_Number : value;
  Waybill_Number : value;
  Customer_Name : value;
  Order_Number : value;
  Invoice_Date : value;
  Line_No : value;
  Item_Code : value;
  Item_Description : value;
  Quantity : value;
  UOM : value;
  Unit_Price : value;
  Total_Amount : value;
  Discount_Amount : value;
  VAT : value;
  Amount_Incl_VAT : value;
  Batch_No : value;
  Expiry_Date : value
}.

(** The row as the dict it is in Python (what [jsonify] serialises). *)
Definition row_to_dict (r : row) : value :=
  VDict [("Invoice_Number", Invoice_Number r); ("Waybill_Number", Waybill_Number r);
         ("Customer_Name", Customer_Name r); ("Order_Number", Order_Number r);
         ("Invoice_Date", Invoice_Date r); ("Line_No", Line_No r);
         ("Item_Code", Item_Code r); ("Item_Description", Item_Description r);
         ("Quantity", Quantity r); ("UOM", UOM r); ("Unit_Price", Unit_Price r);
         ("Total_Amount", Total_Amount r); ("Discount_Amount", Discount_Amount r);
         ("VAT", VAT r); ("Amount_Incl_VAT", Amount_Incl_VAT r);
         ("Batch_No", Batch_No r); ("Expiry_Date", Expiry_Date r)].

(** The dict literal in the loop of [flatten_to_rows]: the header values
    read before the loop and the fields read from the line item [i]. *)
Definition make_row (invoice_number waybill_number customer_name order_number
                     invoice_date : value) (i : dict) : row :=
  {| Invoice_Number := invoice_number;
     Waybill_Number := waybill_number;
     Customer_Name := customer_name;
     Order_Number := order_number;
     Invoice_Date := invoice_date;
     Line_No := get i "line_no" (VStr "");
     Item_Code := get i "item_code" (VStr "");
     Item_Description := get i "item_description" (VStr "");
     Quantity := get i "quantity" (VInt 0);
     UOM := get i "uom" (VStr "");
     Unit_Price := get i "unit_price" (VInt 0);
     Total_Amount := get i "total_amount" (VInt 0);
     Discount_Amount := get i "discount_amount" (VInt 0);
     VAT := get i "vat" (VInt 0);
     Amount_Incl_VAT := get i "amount_incl_vat" (VInt 0);
     Batch_No := get i "batch_no" (VStr "");
     Expiry_Date := get i "expiry_date" (VStr "") |}.

(** The body of the loop: an item that is not a dict has no [get] method. *)
Definition item_row (invoice_number waybill_number customer_name order_number
                     invoice_date item : value) : result row :=
  match item with
  | VDict i =>
      Ok (make_row invoice_number waybill_number customer_name order_number
                   invoice_date i)
  | _ => Raise AttributeError
  end.

(** [flatten_to_rows] of [app.py], which is also the method of the same
    name of [keep.py]. *)
Definition flatten_to_rows (invoice_data : value) : result (list row) :=
  if negb (truthy invoice_data) then Ok []
  else
    match invoice_data with
    | VDict d =>
        let invoice_number := get d "invoice_number" (VStr "") in
        let waybill_number := get d "waybill_number" (VStr "") in
        let customer_name := get d "customer_name" (VStr "") in
        let order_number := get d "order_number" (VStr "") in
        let invoice_date := get d "invoice_date" (VStr "") in
        items ← py_iter (get d "line_items" (VList []));
        mapM (item_row invoice_number waybill_number customer_name
                       order_number invoice_date) items
    | _ => Raise AttributeError
    end.

(** ** Numbers: [int(x)], [float(x)], [x + y] and [x == y] *)

Module Num.

(** binary64 addition and the conversion [float(z)] of an integer, which
    rounds to nearest-even and overflows beyond the largest double. *)
Definition float_add : spec_float → spec_float → spec_float := SFadd 53 1024.

Definition float_of_int (z : Z) : result spec_float :=
  match binary_normalize 53 1024 z 0 false with
  | S754_infinity _ => Raise OverflowError
  | f => Ok f
  end.

(** [int(f)]: truncation towards zero. *)
Definition int_of_float (f : spec_float) : result Z :=
  match f with
  | S754_zero _ => Ok 0
  | S754_finite s m e => Ok (cond_Zopp s (Z.shiftl (Z.pos m) e))
  | S754_infinity _ => Raise OverflowError
  | S754_nan => Raise ValueError
  end.

Definition digit_of (c : ascii) : option Z :=
  let n := nat_of_ascii c in
  if ((48 <=? n) && (n <=? 57))%nat then Some (Z.of_nat (n - 48)) else None.

(** Decimal digits, single underscores allowed between two digits. *)
Fixpoint digits_go (acc : Z) (after_digit : bool) (s : string) : option Z :=
  match s with
  | "" => if after_digit then Some acc else None
  | String c r =>
      match digit_of c with
      | Some n => digits_go (10 * acc + n) true r
      | None =>
          if Ascii.eqb c "_" && after_digit then digits_go acc false r else None
      end
  end.

(** [int(s)] for a string: surrounding whitespace, an optional sign, then
    digits.  (The cap some interpreters put on the number of digits is
    not part of the model.) *)
Definition int_of_str (s : string) : result Z :=
  let parsed :=
    match Str.strip s with
    | String "-" r => Z.opp <$> digits_go 0 false r
    | String "+" r => digits_go 0 false r
    | t => digits_go 0 false t
    end in
  match parsed with
  | Some z => Ok z
  | None => Raise ValueError
  end.

Definition Z_of_bool (b : bool) : Z := if b then 1 else 0.

(** [int(x)]. *)
Definition py_int (v : value) : result Z :=
  match v with
  | VInt z => Ok z
  | VBool b => Ok (Z_of_bool b)
  | VFloat f => int_of_float f
  | VStr s => int_of_str s
  | VNone | VList _ | VDict _ => Raise TypeError
  end.

(** Exact comparison of a double with an integer. *)
Definition float_eq_int (f : spec_float) (z : Z) : bool :=
  match f with
  | S754_zero _ => z =? 0
  | S754_finite s m e =>
      if 0 <=? e then cond_Zopp s (Z.pos m * 2 ^ e) =? z
      else cond_Zopp s (Z.pos m) =? z * 2 ^ (- e)
  | _ => false
  end.

(** [x == y] on the hashable values; [bool] is a subtype of [int]. *)
Definition py_eqb (x y : value) : bool :=
  match x, y with
  | VNone, VNone => true
  | VStr s, VStr t => String.eqb s t
  | VInt a, VInt b => a =? b
  | VInt a, VBool b | VBool b, VInt a => a =? Z_of_bool b
  | VBool a, VBool b => Bool.eqb a b
  | VFloat f, VFloat g => SFeqb f g
  | VFloat f, VInt a | VInt a, VFloat f => float_eq_int f a
  | VFloat f, VBool b | VBool b, VFloat f => float_eq_int f (Z_of_bool b)
  | _, _ => false
  end.

Section WithFloatParser.

(** The parser of floating-point literals behind [float(s)] belongs to
    the interpreter; it is left abstract. *)
Variable float_of_str : string → result spec_float.

(** [float(x)]. *)
Definition py_float (v : value) : result spec_float :=
  match v with
  | VFloat f => Ok f
  | VInt z => float_of_int z
  | VBool b => float_of_int (Z_of_bool b)
  | VStr s => float_of_str s
  | VNone | VList _ | VDict _ => Raise TypeError
  end.

End WithFloatParser.

(** [x + y]. *)
Definition py_add (x y : value) : result value :=
  match x, y with
  | VInt a, VInt b => Ok (VInt (a + b))
  | VInt a, VBool b | VBool b, VInt a => Ok (VInt (a + Z_of_bool b))
  | VBool a, VBool b => Ok (VInt (Z_of_bool a + Z_of_bool b))
  | VFloat f, VFloat g => Ok (VFloat (float_add f g))
  | VFloat f, VInt a => g ← float_of_int a; Ok (VFloat (float_add f g))
  | VInt a, VFloat f => g ← float_of_int a; Ok (VFloat (float_add g f))
  | VFloat f, VBool b => g ← float_of_int (Z_of_bool b); Ok (VFloat (float_add f g))
  | VBool b, VFloat f => g ← float_of_int (Z_of_bool b); Ok (VFloat (float_add g f))
  | VStr s, VStr t => Ok (VStr (s +:+ t))
  | VList l, VList k => Ok (VList (l ++ k))
  | _, _ => Raise TypeError
  end.

End Num.

(** ** The data frame: column types, [nunique] and [sum]

    pandas is a library the application calls, not code of the repository.
    The model keeps what the application observes of a column built from
    the row dicts: the type the column is stored with, the values as stored,
    the count of distinct values that are not missing, and the sum, which
    skips missing values.  Integer columns are machine integers and wrap
    around; a column of other objects is added up with Python's [+], first
    to last.  The sum of a column of doubles is numpy's reduction, whose
    order of additions is not fixed by the library: it is left abstract. *)

Module Pandas.

Inductive dtype : Type := dt_bool | dt_int64 | dt_uint64 | dt_float64 | dt_object.

Definition is_bool (v : value) : bool :=
  match v with VBool _ => true | _ => false end.
Definition is_int (v : value) : bool :=
  match v with VInt _ => true | _ => false end.
Definition is_real (v : value) : bool :=
  match v with VInt _ | VFloat _ => true | _ => false end.
Definition is_real_or_none (v : value) : bool :=
  match v with VInt _ | VFloat _ | VNone => true | _ => false end.

Definition in_int64 (z : Z) : bool := (- 2 ^ 63 <=? z) && (z <? 2 ^ 63).
Definition in_uint64 (z : Z) : bool := (0 <=? z) && (z <? 2 ^ 64).

Definition int_within (p : Z → bool) (v : value) : bool :=
  match v with VInt z => p z | _ => true end.

(** The type a column of Python objects is stored with. *)
Definition infer_dtype (col : list value) : dtype :=
  if forallb is_bool col then dt_bool
  else if forallb is_int col then
    if forallb (int_within in_int64) col then dt_int64
    else if forallb (int_within in_uint64) col then dt_uint64
    else dt_object
  else if forallb is_real_or_none col && existsb is_real col
          && forallb (int_within (fun z => in_int64 z || in_uint64 z)) col
  then dt_float64
  else dt_object.

Definition to_float64 (v : value) : spec_float :=
  match v with
  | VFloat f => f
  | VInt z => binary_normalize 53 1024 z 0 false
  | _ => S754_nan
  end.

(** The values as stored: in a column of doubles the integers are
    converted and [None] becomes NaN. *)
Definition column_values (col : list value) : list value :=
  match infer_dtype col with
  | dt_float64 => (fun v => VFloat (to_float64 v)) <$> col
  | _ => col
  end.

Definition isna (v : value) : bool :=
  match v with VNone | VFloat S754_nan => true | _ => false end.

Definition hashable (v : value) : bool :=
  match v with VList _ | VDict _ => false | _ => true end.

(** The distinct values in order of first appearance. *)
Fixpoint uniques (seen vals : list value) : list value :=
  match vals with
  | [] => seen
  | v :: rest =>
      if existsb (Num.py_eqb v) seen then uniques seen rest
      else uniques (seen ++ [v]) rest
  end.

(** [Series.nunique()]. *)
Definition nunique (col : list value) : result Z :=
  let vals := List.filter (fun v => negb (isna v)) (column_values col) in
  if forallb hashable vals then Ok (Z.of_nat (length (uniques [] vals)))
  else Raise TypeError.

Definition wrap_int64 (z : Z) : Z := (z + 2 ^ 63) mod 2 ^ 64 - 2 ^ 63.

Definition int_value (v : value) : Z :=
  match v with
  | VInt z => z
  | VBool b => Num.Z_of_bool b
  | _ => 0
  end.

Definition fillna (zero v : value) : value := if isna v then zero else v.

(** Addition of the stored objects, first to last. *)
Definition reduce_add (vals : list value) : result value :=
  match vals with
  | [] => Ok (VInt 0)
  | v :: rest => foldl (fun acc y => a ← acc; Num.py_add a y) (Ok v) rest
  end.

(** The doubles of a column stored as doubles, as the sum adds them: a
    missing value counts as 0.0. *)
Definition float64_values (col : list value) : list spec_float :=
  (λ v, match to_float64 v with
        | S754_nan => S754_zero false
        | f => f
        end) <$> col.

Section Reduction.

(** numpy's sum of an array of doubles. *)
Variable float_reduce : list spec_float → spec_float.

(** [Series.sum()]. *)
Definition sum (col : list value) : result value :=
  match infer_dtype col with
  | dt_bool | dt_int64 => Ok (VInt (wrap_int64 (sum_Z (int_value <$> col))))
  | dt_uint64 => Ok (VInt (sum_Z (int_value <$> col) mod 2 ^ 64))
  | dt_float64 => Ok (VFloat (float_reduce (float64_values col)))
  | dt_object => reduce_add (fillna (VInt 0) <$> col)
  end.

End Reduction.

End Pandas.

(** ** Statistics of [process_files] *)

Record stats : Type := Stats {
  total_documents : Z;
  total_line_items : Z;
  total_quantity : Z;
  total_value : value
}.

(** [df.empty] for [df = pd.DataFrame(all_rows) if all_rows else pd.DataFrame()]:
    a frame built from at least one row dict has seventeen columns and is
    not empty. *)
Definition df_empty (all_rows : list row) : bool :=
  match all_rows with
  | [] => true
  | _ => false
  end.

Section Statistics.

Variable float_of_str : string → result spec_float.
Variable float_reduce : list spec_float → spec_float.

Definition stat_total_documents (all_rows : list row) : result Z :=
  if negb (df_empty all_rows) then Pandas.nunique (Invoice_Number <$> all_rows)
  else Ok 0.

Definition stat_total_line_items (all_rows : list row) : Z :=
  Z.of_nat (length all_rows).

Definition stat_total_quantity (all_rows : list row) : result Z :=
  if negb (df_empty all_rows) then
    s ← Pandas.sum float_reduce (Quantity <$> all_rows); Num.py_int s
  else Ok 0.

Definition stat_total_value (all_rows : list row) : result value :=
  if negb (df_empty all_rows) then
    s ← Pandas.sum float_reduce (Amount_Incl_VAT <$> all_rows);
    f ← Num.py_float float_of_str s;
    Ok (VFloat f)
  else Ok (VInt 0).

(** The [stats] dict literal: its entries are evaluated in order and the
    first exception leaves the handler. *)
Definition compute_stats (all_rows : list row) : result stats :=
  d ← stat_total_documents all_rows;
  let n := stat_total_line_items all_rows in
  q ← stat_total_quantity all_rows;
  v ← stat_total_value all_rows;
  Ok {| total_documents := d; total_line_items := n;
        total_quantity := q; total_value := v |}.

End Statistics.

(** ** Extraction and the batch loop *)

(** What the handlers print. *)
Inductive log_line : Type :=
| PrintError (e : exn)
| PrintErrorProcessing (filepath : value) (e : exn).

(** A response of a handler: a [jsonify] body with its status, or an
    exception that leaves the handler. *)
Inductive response : Type :=
| Json (body : value) (status : Z)
| Abort (status : Z)
| Unhandled (e : exn).

(** The accumulators of the loop of [process_files], with the output. *)
Record batch : Type := Batch {
  all_rows : list row;
  processed : Z;
  output : list log_line
}.

Section Service.

(** The remote model: for a file path, the text of its answer (upload,
    [generate_content] and [response.text] together), or the exception one
    of these steps raises.  [json.loads] is the decoder of the standard
    library. *)
Variable generate_text : value → result string.
Variable json_loads : string → result value.
Variable float_of_str : string → result spec_float.
Variable float_reduce : list spec_float → spec_float.

(** The constructor [InvoiceExtractor()], which builds the client of the
    remote model and raises when it cannot (no key, for one). *)
Variable new_extractor : result unit.

Definition clean_response (text : string) : string :=
  Str.strip (Str.replace "```" "" (Str.replace "```json" "" (Str.strip text))).

(** [InvoiceExtractor.extract_invoice_data]: the decoded answer, or [None]
    after printing the exception. *)
Definition extract_invoice_data (image_path : value) : value * list log_line :=
  match text ← generate_text image_path; json_loads (clean_response text) with
  | Ok data => (data, [])
  | Raise e => (VNone, [PrintError e])
  end.

(** One iteration of the loop of [process_files]: the [try] block and its
    handler. *)
Definition loop_body (acc : batch) (filepath : value) : batch :=
  let '(invoice_data, printed) := extract_invoice_data filepath in
  if truthy invoice_data then
    match flatten_to_rows invoice_data with
    | Ok rows =>
        {| all_rows := all_rows acc ++ rows;
           processed := processed acc + 1;
           output := output acc ++ printed |}
    | Raise e =>
        {| all_rows := all_rows acc;
           processed := processed acc;
           output := output acc ++ printed ++ [PrintErrorProcessing filepath e] |}
    end
  else
    {| all_rows := all_rows acc;
       processed := processed acc;
       output := output acc ++ printed |}.

Definition process_loop (file_paths : list value) (acc : batch) : batch :=
  foldl loop_body acc file_paths.

(** The batch of the specification: the loop from empty accumulators. *)
Definition process_batch (file_paths : list value) : batch :=
  process_loop file_paths {| all_rows := []; processed := 0; output := [] |}.

Definition stats_to_dict (s : stats) : value :=
  VDict [("total_documents", VInt (total_documents s));
         ("total_line_items", VInt (total_line_items s));
         ("total_quantity", VInt (total_quantity s));
         ("total_value", total_value s)].

(** The handler of [/process]: from the body of the request and the
    stored rows to the response, the stored rows afterwards, and the
    output. *)
Definition process_files (request_json : value) (extracted_data : list row)
  : response * list row * list log_line :=
  match request_json with
  | VDict data =>
      let file_paths := get data "file_paths" (VList []) in
      if negb (truthy file_paths) then
        (Json (VDict [("error", VStr "No files to process")]) 400, extracted_data, [])
      else
        match new_extractor with
        | Raise e => (Unhandled e, extracted_data, [])
        | Ok _ =>
            match py_iter file_paths with
            | Raise e => (Unhandled e, extracted_data, [])
            | Ok paths =>
                let b := process_batch paths in
                let extracted_data := all_rows b in
                match compute_stats float_of_str float_reduce (all_rows b) with
                | Raise e => (Unhandled e, extracted_data, output b)
                | Ok s =>
                    (Json (VDict [("success", VBool true);
                                  ("processed", VInt (processed b));
                                  ("total_rows",
                                   VInt (Z.of_nat (length (all_rows b))));
                                  ("stats", stats_to_dict s)]) 200,
                     extracted_data, output b)
                end
            end
        end
  | _ => (Unhandled AttributeError, extracted_data, [])
  end.

End Service.

(** The handler of [/data]. *)
Definition get_data (extracted_data : list row) : response :=
  Json (VDict [("data", VList (row_to_dict <$> extracted_data));
               ("count", VInt (Z.of_nat (length extracted_data)))]) 200.

(** ** Upload *)

Definition MAX_CONTENT_LENGTH : Z := 16 * 1024 * 1024.
Definition ALLOWED_EXTENSIONS : gset string := {[ "png"; "jpg"; "jpeg"; "pdf" ]}.
Definition UPLOAD_FOLDER : string := "uploads".

(** [allowed_file]. *)
Definition allowed_file (filename : string) : bool :=
  Str.has_dot filename &&
  match Str.rsplit_dot filename !! 1%nat with
  | Some ext => bool_decide (Str.lower ext ∈ ALLOWED_EXTENSIONS)
  | None => false
  end.

(** An uploaded part: its file name and the number of bytes of its content. *)
Record file_storage : Type := FileStorage {
  filename : string;
  content_size : Z
}.

(** An upload request: the length of its body and the file parts, each
    under its field name, in the order they were sent. *)
Record upload_request : Type := UploadRequest {
  content_length : Z;
  files : list (string * file_storage)
}.

(** A body carries the content of every part. *)
Definition well_formed (req : upload_request) : Prop :=
  Forall (fun p => 0 ≤ content_size p.2) (files req) ∧
  sum_Z ((fun p => content_size p.2) <$> files req) ≤ content_length req.

(** [request.files.getlist(field)]. *)
Definition getlist (field : string) (fs : list (string * file_storage)) : list file_storage :=
  snd <$> List.filter (fun p => String.eqb p.1 field) fs.

(** One entry of the returned list. *)
Record uploaded : Type := Uploaded {
  original_name : string;
  stored_name : string;
  path : string;
  stored_size : Z
}.

Definition uploaded_to_dict (u : uploaded) : value :=
  VDict [("original_name", VStr (original_name u)); ("stored_name", VStr (stored_name u));
         ("path", VStr (path u)); ("size", VInt (stored_size u))].

(** The disk (sizes of the stored files by path) and the number of
    identifiers drawn so far. *)
Record disk : Type := Disk {
  stored : gmap string Z;
  drawn : nat
}.

Section Upload.

(** [werkzeug.utils.secure_filename] and the successive results of
    [uuid.uuid4()]. *)
Variable secure_filename : string → string.
Variable uuid4 : nat → string.

(** The body of the loop of [upload_files]; a part is true when its file
    name is not empty. *)
Definition upload_one (acc : disk * list uploaded) (file : file_storage)
  : disk * list uploaded :=
  let '(dk, uploaded_files) := acc in
  if negb (String.eqb (filename file) "") && allowed_file (filename file) then
    let name := secure_filename (filename file) in
    let unique_filename := uuid4 (drawn dk) +:+ "_" +:+ name in
    let filepath := UPLOAD_FOLDER +:+ "/" +:+ unique_filename in
    let on_disk := <[filepath := content_size file]> (stored dk) in
    ({| stored := on_disk; drawn := S (drawn dk) |},
     uploaded_files ++ [{| original_name := name;
                           stored_name := unique_filename;
                           path := filepath;
                           stored_size := on_disk !!! filepath |}])
  else acc.

(** The handler of [/upload].  The framework refuses a request whose body
    is longer than [MAX_CONTENT_LENGTH] when the handler first reads
    [request.files]. *)
Definition upload_files (req : upload_request) (dk : disk) : response * disk :=
  if MAX_CONTENT_LENGTH <? content_length req then (Abort 413, dk)
  else if negb (existsb (fun p => String.eqb p.1 "files[]") (files req)) then
    (Json (VDict [("error", VStr "No files provided")]) 400, dk)
  else
    let '(dk', uploaded_files) :=
      foldl upload_one (dk, []) (getlist "files[]" (files req)) in
    (Json (VDict [("success", VBool true);
                  ("files", VList (uploaded_to_dict <$> uploaded_files));
                  ("count", VInt (Z.of_nat (length uploaded_files)))]) 200,
     dk').

End Upload.

(** ** Notions the properties are stated with *)

(** The header of a record as [flatten_to_rows] reads it. *)
Definition header_row (d : dict) : dict → row :=
  make_row (get d "invoice_number" (VStr "")) (get d "waybill_number" (VStr ""))
           (get d "customer_name" (VStr "")) (get d "order_number" (VStr ""))
           (get d "invoice_date" (VStr "")).

(** A decoded answer that is a JSON object. *)
Definition is_record (v : value) : bool :=
  match v with VDict _ => true | _ => false end.

(** An answer the loop of [process_files] counts: it is true as a Python
    object and it flattens without an exception. *)
Definition counted (v : value) : bool :=
  truthy v && is_ok (flatten_to_rows v).

(** The accumulators of two stretches of a batch, one after the other. *)
Definition batch_app (a b : batch) : batch :=
  {| all_rows := all_rows a ++ all_rows b;
     processed := processed a + processed b;
     output := output a ++ output b |}.

Definition empty_batch : batch := {| all_rows := []; processed := 0; output := [] |}.

(** Invoice numbers as the data model declares them: text, or null. *)
Definition text_or_none (v : value) : bool :=
  match v with VStr _ | VNone => true | _ => false end.

Definition text_of (v : value) : option string :=
  match v with VStr s => Some s | _ => None end.

(** The set of the invoice numbers that appear among the rows. *)
Definition invoice_numbers (rows : list row) : gset string :=
  list_to_set (omap text_of (Invoice_Number <$> rows)).

(** A part that [upload_files] stores. *)
Definition accepted (file : file_storage) : bool :=
  negb (String.eqb (filename file) "") && allowed_file (filename file).


(** numpy adds the doubles of an array in an order that depends on the
    length of the array (in blocks, pairwise).  A sum in some order is a tree
    of additions whose leaves are the elements of the array, in any
    arrangement, and the zeros the sum starts from. *)
Inductive sum_tree : Type :=
| Leaf (f : spec_float)
| Node (l r : sum_tree).

Fixpoint tree_sum (t : sum_tree) : spec_float :=
  match t with
  | Leaf f => f
  | Node l r => Num.float_add (tree_sum l) (tree_sum r)
  end.

Fixpoint leaves (t : sum_tree) : list spec_float :=
  match t with
  | Leaf f => [f]
  | Node l r => leaves l ++ leaves r
  end.

Definition sums_in_some_order (float_reduce : list spec_float → spec_float)
    (l : list spec_float) : Prop :=
  ∃ (t : sum_tree) (zeros : list spec_float),
    Forall (λ f, ∃ s, f = S754_zero s) zeros ∧
    leaves t ≡ₚ zeros ++ l ∧
    float_reduce l = tree_sum t.



(** ** Sample services and inputs *)

Module Sample.

(** A service that answers an empty JSON object for every file. *)
Definition empty_object_text (_ : value) : result string := Ok "{}".

(** A service with three known files: the second one is unreachable. *)
Definition three_files (filepath : value) : result string :=
  match filepath with
  | VStr "uploads/1.png" => Ok "```json one ```"
  | VStr "uploads/3.png" => Ok "three"
  | VStr "uploads/header.png" => Ok "header"
  | _ => Raise (ServiceError "unavailable")
  end.

(** A decoder defined on the answers of the sample services. *)
Definition decode (text : string) : result value :=
  if String.eqb text "{}" then Ok (VDict [])
  else if String.eqb text "one" then
    Ok (VDict [("invoice_number", VStr "INV1");
               ("line_items",
                VList [VDict [("line_no", VInt 1); ("quantity", VInt 2);
                              ("amount_incl_vat", VFloat (S754_finite false 25 1))];
                       VDict [("line_no", VInt 2); ("quantity", VInt 3);
                              ("amount_incl_vat", VFloat (S754_finite false 75 0))]])])
  else if String.eqb text "three" then
    Ok (VDict [("invoice_number", VStr "INV3");
               ("line_items", VList [VDict [("quantity", VInt 4)]])])
  else if String.eqb text "header" then
    Ok (VDict [("invoice_number", VStr "INV9")])
  else Raise (JSONDecodeError "Expecting value").

Definition no_float (_ : string) : result spec_float := Raise ValueError.

(** A reduction that adds from first to last, and a constructor that
    returns. *)
Definition first_to_last (l : list spec_float) : spec_float :=
  foldl Num.float_add (S754_zero false) l.

Definition extractor_ready : result unit := Ok tt.

Definition invoice_one : dict :=
  [("invoice_number", VStr "INV1");
   ("customer_name", VStr "ACME");
   ("line_items", VList (VDict <$> [[("line_no", VInt 1); ("quantity", VInt 2)];
                                    [("line_no", VInt 2); ("item_code", VStr "X")]]))].

Definition invoice_two (number : string) : dict :=
  [("invoice_number", VStr number);
   ("line_items", VList (VDict <$> [[("line_no", VInt 1); ("quantity", VInt 7)]]))].

Definition keep_name (s : string) : string := s.
Definition numbered (n : nat) : string := "id" +:+ String (ascii_of_nat (48 + n)) "".

Definition mixed_upload : upload_request :=
  {| content_length := 5000;
     files := [("files[]", {| filename := "scan.PNG"; content_size := 1200 |});
               ("files[]", {| filename := "notes.txt"; content_size := 300 |});
               ("other", {| filename := "x.pdf"; content_size := 10 |});
               ("files[]", {| filename := "a.b.pdf"; content_size := 2000 |})] |}.

Definition oversize_upload : upload_request :=
  {| content_length := 17 * 1024 * 1024 + 200;
     files := [("files[]", {| filename := "big.png"; content_size := 17 * 1024 * 1024 |})] |}.

Definition empty_disk : disk := {| stored := ∅; drawn := 0 |}.

End Sample.

(** ** Export and clear *)

(** The columns of the exported table, in the order of the row dict. *)
Definition column_names : list string :=
  ["Invoice_Number"; "Waybill_Number"; "Customer_Name"; "Order_Number";
   "Invoice_Date"; "Line_No"; "Item_Code"; "Item_Description"; "Quantity";
   "UOM"; "Unit_Price"; "Total_Amount"; "Discount_Amount"; "VAT";
   "Amount_Incl_VAT"; "Batch_No"; "Expiry_Date"].

(** A data frame, column by column: the name of each column and its values
    as stored. *)
Abbreviation frame := (list (string * list value)).

(** [pd.DataFrame(rows)] for a list of row dicts: the columns are the keys
    of the dicts in the order they are written. *)
Definition DataFrame (rows : list row) : frame :=
  [("Invoice_Number", Pandas.column_values (Invoice_Number <$> rows));
   ("Waybill_Number", Pandas.column_values (Waybill_Number <$> rows));
   ("Customer_Name", Pandas.column_values (Customer_Name <$> rows));
   ("Order_Number", Pandas.column_values (Order_Number <$> rows));
   ("Invoice_Date", Pandas.column_values (Invoice_Date <$> rows));
   ("Line_No", Pandas.column_values (Line_No <$> rows));
   ("Item_Code", Pandas.column_values (Item_Code <$> rows));
   ("Item_Description", Pandas.column_values (Item_Description <$> rows));
   ("Quantity", Pandas.column_values (Quantity <$> rows));
   ("UOM", Pandas.column_values (UOM <$> rows));
   ("Unit_Price", Pandas.column_values (Unit_Price <$> rows));
   ("Total_Amount", Pandas.column_values (Total_Amount <$> rows));
   ("Discount_Amount", Pandas.column_values (Discount_Amount <$> rows));
   ("VAT", Pandas.column_values (VAT <$> rows));
   ("Amount_Incl_VAT", Pandas.column_values (Amount_Incl_VAT <$> rows));
   ("Batch_No", Pandas.column_values (Batch_No <$> rows));
   ("Expiry_Date", Pandas.column_values (Expiry_Date <$> rows))].

Definition RESULTS_FOLDER : string := "results".

(** What [/export] answers: a [jsonify] error, an exception of the writer
    that leaves the handler, or the file it sends, with the sheet name and
    the frame it handed to the writer. *)
Inductive export_response : Type :=
| ExportRefused (body : value) (status : Z)
| ExportFailed (e : exn)
| SendFile (filepath download_name sheet_name : string) (df : frame).

Section ExportHandler.

(** The time of the request as [strftime('%Y%m%d_%H%M%S')] prints it, and
    the spreadsheet writer, which either writes the file or raises. *)
Variable timestamp : string.
Variable to_excel : frame → result unit.

(** The handler of [/export]. *)
Definition export_excel (extracted_data : list row) : export_response :=
  match extracted_data with
  | [] => ExportRefused (VDict [("error", VStr "No data to export")]) 400
  | _ =>
      let df := DataFrame extracted_data in
      let filename := "invoice_extract_" +:+ timestamp +:+ ".xlsx" in
      let filepath := RESULTS_FOLDER +:+ "/" +:+ filename in
      match to_excel df with
      | Raise e => ExportFailed e
      | Ok _ => SendFile filepath filename "Invoice_Data" df
      end
  end.

End ExportHandler.

(** [s] without the prefix [p], when it starts with it. *)
Fixpoint strip_prefix (p s : string) : option string :=
  match p, s with
  | "", _ => Some s
  | String a p', String b s' => if Ascii.eqb a b then strip_prefix p' s' else None
  | String _ _, "" => None
  end.

Fixpoint has_slash (s : string) : bool :=
  match s with
  | "" => false
  | String c r => Ascii.eqb c "/" || has_slash r
  end.

(** The paths [os.path.join(UPLOAD_FOLDER, file)] for the entries [file]
    that [os.listdir(UPLOAD_FOLDER)] lists: the stored files directly in
    the upload folder. *)
Definition in_upload_folder (p : string) : bool :=
  match strip_prefix (UPLOAD_FOLDER +:+ "/") p with
  | Some name => negb (String.eqb name "") && negb (has_slash name)
  | None => false
  end.

Section ClearHandler.

(** The paths for which [os.remove] raises. *)
Variable remove_fails : string → bool.

(** A stored file survives [/clear] when it is not listed, or when its
    removal raises (the exception is ignored). *)
Definition survives (p : string) : bool :=
  negb (in_upload_folder p) || remove_fails p.

(** The handler of [/clear]: the response, the stored rows and the disk
    afterwards. *)
Definition clear_data (extracted_data : list row) (dk : disk)
  : response * list row * disk :=
  (Json (VDict [("success", VBool true)]) 200,
   [],
   {| stored := filter (λ kv : string * Z, survives kv.1 = true) (stored dk);
      drawn := drawn dk |}).

End ClearHandler.

(** The path under which the [n]-th identifier stores a file named [name]. *)
Definition stored_path (uuid4 : nat → string) (n : nat) (name : string) : string :=
  UPLOAD_FOLDER +:+ "/" +:+ (uuid4 n +:+ "_" +:+ name).

Definition newline : string := String "010" "".

(** Identifiers [first], ..., [first + count - 1] have one length and do
    not repeat. *)
Definition fresh_identifiers (uuid4 : nat → string) (first count : nat) : Prop :=
  ∀ n m : nat,
    (first ≤ n < first + count)%nat → (first ≤ m < first + count)%nat →
    String.length (uuid4 n) = String.length (uuid4 m) ∧ (uuid4 n = uuid4 m → n = m).

(** Text without a backquote. *)
Fixpoint no_backquote (s : string) : bool :=
  match s with
  | "" => true
  | String c r => negb (Ascii.eqb c "`") && no_backquote r
  end.

(** ** The command-line variant ([keep.py]) *)

(** What the command-line variant prints. *)
Inductive keep_line : Type :=
| KProcessing (idx total : Z) (image_path : value)
| KJsonParsingError (e : exn)
| KResponse (head : string)
| KError (e : exn)
| KExtracted (n : Z)
| KFailed
| KNoData
| KBanner
| KSaved (n : Z) (output_excel : string)
| KDocuments (n : Z)
| KTotalLineItems (n : Z)
| KColumns (n : Z)
| KColumnNamesTitle
| KColumnName (col : string).

(** The exceptions that leave the functions of [keep.py]: the handler of
    [JSONDecodeError] reads [response.text], which raises when the exception
    came before [response] was bound; [flatten_to_rows] is called outside
    any [try]; so is the writer. *)
Inductive keep_exit : Type :=
| HandlerError
| FlattenError (e : exn)
| WriterError (e : exn).

Inductive outcome (A : Type) : Type :=
| Returned (a : A)
| Escaped (x : keep_exit).
Arguments Returned {A} a.
Arguments Escaped {A} x.

(** The workbook [process_multiple_invoices] saves. *)
Record workbook : Type := Workbook {
  book_path : string;
  book_sheet : string;
  book_frame : frame;
  book_widths : list (string * Z)
}.

(** The largest element of a list of numbers that are at least [z]
    ([Series.max()] on a column, which is not empty). *)
Definition max_Z (z : Z) (l : list Z) : Z := foldr Z.max z l.

Module Keep.

Section Service.

Variable generate_text : value → result string.
Variable json_loads : string → result value.

(** [InvoiceExtractor.extract_invoice_data] of [keep.py]: a decoding error
    prints the exception and the first 200 characters of the answer. *)
Definition extract_invoice_data (image_path : value) : outcome value * list keep_line :=
  match generate_text image_path with
  | Raise (JSONDecodeError msg) =>
      (Escaped HandlerError, [KJsonParsingError (JSONDecodeError msg)])
  | Raise e => (Returned VNone, [KError e])
  | Ok text =>
      match json_loads (clean_response text) with
      | Ok data => (Returned data, [])
      | Raise (JSONDecodeError msg) =>
          (Returned VNone,
           [KJsonParsingError (JSONDecodeError msg);
            KResponse (String.substring 0 200 text)])
      | Raise e => (Returned VNone, [KError e])
      end
  end.

(** The loop of [process_multiple_invoices], from the file numbered [idx]. *)
Fixpoint loop (total idx : Z) (image_paths : list value)
    (all_rows : list row) (out : list keep_line) : outcome (list row) * list keep_line :=
  match image_paths with
  | [] => (Returned all_rows, out)
  | image_path :: rest =>
      let out := out ++ [KProcessing idx total image_path] in
      match extract_invoice_data image_path with
      | (Escaped x, printed) => (Escaped x, out ++ printed)
      | (Returned invoice_data, printed) =>
          if truthy invoice_data then
            match flatten_to_rows invoice_data with
            | Raise e => (Escaped (FlattenError e), out ++ printed)
            | Ok rows =>
                loop total (idx + 1) rest (all_rows ++ rows)
                     (out ++ printed ++ [KExtracted (Z.of_nat (length rows))])
            end
          else loop total (idx + 1) rest all_rows (out ++ printed ++ [KFailed])
      end
  end.


(** The writer, the text length of a stored value ([len(str(x))]) and the
    letter of a column; the last two may raise, and the column is then
    skipped. *)
Variable to_excel : frame → result unit.
Variable str_len : value → result nat.
Variable get_column_letter : nat → result string.

(** The width of one column: its longest text or its name, two more, at
    most 50. *)
Definition adjusted_width (idx : nat) (col : string * list value) : result (string * Z) :=
  column_letter ← get_column_letter idx;
  lens ← mapM str_len col.2;
  let max_length := Z.max (max_Z 0 (Z.of_nat <$> lens)) (Z.of_nat (String.length col.1)) in
  Ok (column_letter, Z.min (max_length + 2) 50).

Definition column_widths (df : frame) : list (string * Z) :=
  omap (λ p : nat * (string * list value),
          match adjusted_width (S p.1) p.2 with
          | Ok w => Some w
          | Raise _ => None
          end)
       (imap (λ i col, (i, col)) df).

(** [process_multiple_invoices]: what it returns, what it prints and the
    workbook it saves. *)
Definition process_multiple_invoices (image_paths : list value) (output_excel : string)
  : outcome (option frame) * list keep_line * option workbook :=
  match loop (Z.of_nat (length image_paths)) 1 image_paths [] [] with
  | (Escaped x, out) => (Escaped x, out, None)
  | (Returned [], out) => (Returned None, out ++ [KNoData], None)
  | (Returned all_rows, out) =>
      let df := DataFrame all_rows in
      match to_excel df with
      | Raise e => (Escaped (WriterError e), out, None)
      | Ok _ =>
          (Returned (Some df),
           out ++ [KBanner;
                   KSaved (Z.of_nat (length all_rows)) output_excel;
                   KBanner;
                   KDocuments (Z.of_nat (length image_paths));
                   KTotalLineItems (Z.of_nat (length all_rows));
                   KColumns (Z.of_nat (length df));
                   KColumnNamesTitle]
               ++ (KColumnName ∘ fst <$> df),
           Some {| book_path := output_excel; book_sheet := "Invoice_Data";
                   book_frame := df; book_widths := column_widths df |})
      end
  end.

End Service.

End Keep.

(** More sample services. *)
Module Sample2.

Definition accept_all (_ : frame) : result unit := Ok tt.
Definition never_fails (_ : string) : bool := false.
Definition text_length (v : value) : result nat :=
  match v with
  | VStr s => Ok (String.length s)
  | _ => Ok 1%nat
  end.
Definition letter (idx : nat) : result string :=
  Ok (String (ascii_of_nat (64 + idx)) "").


Definition decode (text : string) : result value :=
  if String.eqb text "bad" then Ok (VDict [("line_items", VList [VInt 1])])
  else Sample.decode text.

(** A sanitiser that turns slashes into underscores, and identifiers made
    of a growing number of one letter. *)
Fixpoint flat_name (s : string) : string :=
  match s with
  | "" => ""
  | String c r => String (if Ascii.eqb c "/" then "_"%char else c) (flat_name r)
  end.

Fixpoint tally (n : nat) : string :=
  match n with
  | O => "i"
  | S k => String "x" (tally k)
  end.

(** A service whose answer has a quantity that is text. *)
Definition text_quantity (_ : value) : result string := Ok "text".

Definition decode_text (_ : string) : result value :=
  Ok (VDict [("invoice_number", VStr "INV1");
             ("line_items", VList [VDict [("quantity", VStr "abc")]])]).

Definition two_pngs : upload_request :=
  {| content_length := 4000;
     files := [("files[]", {| filename := "a.png"; content_size := 10 |});
               ("files[]", {| filename := "a.png"; content_size := 20 |})] |}.

End Sample2.

(** * Properties *)

(** ** The model on concrete inputs *)

Example clean_response_fenced :
  clean_response (String "010" "```json {} ```" +:+ String "010" "") = "{}".
Proof. reflexivity. Qed.

Example allowed_file_examples :
  allowed_file "scan.PNG" = true ∧ allowed_file "a.b.pdf" = true ∧
  allowed_file "notes.txt" = false ∧ allowed_file "png" = false ∧
  allowed_file "archive.pdf." = false.
Proof. repeat split. Qed.

Example int_of_str_examples :
  Num.int_of_str " 12 " = Ok 12 ∧ Num.int_of_str "-1_000" = Ok (-1000) ∧
  Num.int_of_str "abc" = Raise ValueError ∧ Num.int_of_str "" = Raise ValueError.
Proof. repeat split. Qed.

(** One record with two line items (quantities 2 and 3, amounts 50.0 and
    75.0): two rows, one document, five units, a total value of 125.0. *)
Example one_invoice_end_to_end :
  process_files Sample.three_files Sample.decode Sample.no_float
    Sample.first_to_last Sample.extractor_ready
    (VDict [("file_paths", VList [VStr "uploads/1.png"])]) []
  = (Json (VDict [("success", VBool true); ("processed", VInt 1);
                  ("total_rows", VInt 2);
                  ("stats",
                   VDict [("total_documents", VInt 1); ("total_line_items", VInt 2);
                          ("total_quantity", VInt 5);
                          ("total_value",
                           VFloat (binary_normalize 53 1024 125 0 false))])]) 200,
     header_row [("invoice_number", VStr "INV1")]
       <$> [[("line_no", VInt 1); ("quantity", VInt 2);
             ("amount_incl_vat", VFloat (S754_finite false 25 1))];
            [("line_no", VInt 2); ("quantity", VInt 3);
             ("amount_incl_vat", VFloat (S754_finite false 75 0))]],
     []).
Proof. vm_compute. reflexivity. Qed.

(** Three files, the second of which cannot be extracted. *)
Example three_files_batch :
  processed (process_batch Sample.three_files Sample.decode
               [VStr "uploads/1.png"; VStr "uploads/2.png"; VStr "uploads/3.png"]) = 2 ∧
  length (all_rows (process_batch Sample.three_files Sample.decode
               [VStr "uploads/1.png"; VStr "uploads/2.png"; VStr "uploads/3.png"])) = 3%nat.
Proof. split; reflexivity. Qed.

(** ** The flattener *)

Lemma lookup_key_nonempty (k : string) (d : dict) (v : value) :
  lookup_key k d = Some v → truthy (VDict d) = true.
Proof. by destruct d. Qed.

Lemma mapM_item_row (h1 h2 h3 h4 h5 : value) (items : list dict) :
  mapM (item_row h1 h2 h3 h4 h5) (VDict <$> items)
  = Ok (make_row h1 h2 h3 h4 h5 <$> items).
Proof.
  induction items as [|i items IH]; [reflexivity|].
  change (mapM (item_row h1 h2 h3 h4 h5) (VDict <$> i :: items))
    with (item_row h1 h2 h3 h4 h5 (VDict i) ≫= λ y,
          mapM (item_row h1 h2 h3 h4 h5) (VDict <$> items) ≫= λ k, mret (y :: k)).
  by rewrite IH.
Qed.

(** A record whose line items are objects flattens to one row per item. *)
Lemma flatten_dict_items (d : dict) (items : list dict) :
  lookup_key "line_items" d = Some (VList (VDict <$> items)) →
  flatten_to_rows (VDict d) = Ok (header_row d <$> items).
Proof.
  intros Hitems. unfold flatten_to_rows.
  rewrite (lookup_key_nonempty _ _ _ Hitems). cbn [negb].
  unfold get at 6. rewrite Hitems. cbn [default py_iter mbind result_bind].
  apply mapM_item_row.
Qed.

(** A record without line items flattens to no row. *)
Lemma flatten_no_items (d : dict) :
  lookup_key "line_items" d = None ∨ lookup_key "line_items" d = Some (VList []) →
  flatten_to_rows (VDict d) = Ok [].
Proof.
  intros Hitems. unfold flatten_to_rows.
  destruct (truthy (VDict d)); [|reflexivity]. cbn [negb].
  unfold get at 6. by destruct Hitems as [-> | ->].
Qed.

(** C1. A record with N line items flattens to exactly N rows; the row at
    position n carries the five header values read from the record
    (invoice number, waybill number, customer name, order number, invoice
    date) and the fields of the line item at position n, so the rows come
    in the order of the line items (no line item, no row). *)
Theorem flatten_one_row_per_line_item (d : dict) (items : list dict) :
  lookup_key "line_items" d = Some (VList (VDict <$> items)) →
  ∃ rows : list row,
    flatten_to_rows (VDict d) = Ok rows ∧
    length rows = length items ∧
    ∀ (n : nat) (i : dict), items !! n = Some i →
      ∃ r : row, rows !! n = Some r ∧
        Invoice_Number r = get d "invoice_number" (VStr "") ∧
        Waybill_Number r = get d "waybill_number" (VStr "") ∧
        Customer_Name r = get d "customer_name" (VStr "") ∧
        Order_Number r = get d "order_number" (VStr "") ∧
        Invoice_Date r = get d "invoice_date" (VStr "") ∧
        Line_No r = get i "line_no" (VStr "") ∧
        Item_Code r = get i "item_code" (VStr "") ∧
        Item_Description r = get i "item_description" (VStr "") ∧
        Quantity r = get i "quantity" (VInt 0) ∧
        UOM r = get i "uom" (VStr "") ∧
        Unit_Price r = get i "unit_price" (VInt 0) ∧
        Total_Amount r = get i "total_amount" (VInt 0) ∧
        Discount_Amount r = get i "discount_amount" (VInt 0) ∧
        VAT r = get i "vat" (VInt 0) ∧
        Amount_Incl_VAT r = get i "amount_incl_vat" (VInt 0) ∧
        Batch_No r = get i "batch_no" (VStr "") ∧
        Expiry_Date r = get i "expiry_date" (VStr "").
Proof.
  intros Hitems. exists (header_row d <$> items).
  split; [by apply flatten_dict_items|].
  split; [by rewrite length_fmap|].
  intros n i Hn. exists (header_row d i).
  split; [by rewrite list_lookup_fmap, Hn|].
  repeat split.
Qed.

Lemma flatten_one_row_per_line_item_witness :
  lookup_key "line_items" Sample.invoice_one
  = Some (VList (VDict <$> [[("line_no", VInt 1); ("quantity", VInt 2)];
                            [("line_no", VInt 2); ("item_code", VStr "X")]])) ∧
  ∃ rows : list row,
    flatten_to_rows (VDict Sample.invoice_one) = Ok rows ∧ length rows = 2%nat.
Proof.
  split; [reflexivity|].
  destruct (flatten_one_row_per_line_item Sample.invoice_one
              [[("line_no", VInt 1); ("quantity", VInt 2)];
               [("line_no", VInt 2); ("item_code", VStr "X")]] eq_refl)
    as (rows & Hrows & Hlen & _).
  exists rows. split; [exact Hrows | exact Hlen].
Defined.

(** C2. The flattener returns the empty sequence for a null record, and
    for every record without the [line_items] key or with an empty list of
    line items; none of these is an exception. *)
Theorem flatten_without_line_items :
  flatten_to_rows VNone = Ok [] ∧
  ∀ d : dict,
    lookup_key "line_items" d = None ∨ lookup_key "line_items" d = Some (VList []) →
    flatten_to_rows (VDict d) = Ok [].
Proof. split; [reflexivity | apply flatten_no_items]. Qed.

Lemma flatten_without_line_items_witness :
  (lookup_key "line_items" [("invoice_number", VStr "INV9")] = None ∨
   lookup_key "line_items" [("invoice_number", VStr "INV9")] = Some (VList [])) ∧
  flatten_to_rows (VDict [("invoice_number", VStr "INV9")]) = Ok [].
Proof.
  split; [left; reflexivity|].
  apply (proj2 flatten_without_line_items [("invoice_number", VStr "INV9")]).
  left; reflexivity.
Defined.

(** C7 as stated fails on the line number: a line item without [line_no]
    gets the empty string, not 0. *)
Lemma line_no_defaults_to_empty_string :
  ∃ r : row,
    flatten_to_rows (VDict [("line_items", VList [VDict []])]) = Ok [r] ∧
    lookup_key "line_no" [] = None ∧
    Line_No r = VStr "" ∧
    Line_No r ≠ VInt 0.
Proof. eexists. split; [reflexivity|]. by repeat split. Qed.

Lemma get_missing (i : dict) (k : string) (dflt : value) :
  lookup_key k i = None → get i k dflt = dflt.
Proof. intros H. unfold get. by rewrite H. Qed.

(** C7 (amended). In every row the flattener produces, a field missing
    from the line item takes the default written in the code: the empty
    string for the line number and for the text fields (item code,
    description, unit of measure, batch number, expiry date), the integer 0
    for the six amounts (quantity, unit price, total amount, discount
    amount, VAT, amount including VAT). *)
Theorem flatten_missing_field_defaults
    (d : dict) (items : list dict) (n : nat) (i : dict) :
  lookup_key "line_items" d = Some (VList (VDict <$> items)) →
  items !! n = Some i →
  ∃ (rows : list row) (r : row),
    flatten_to_rows (VDict d) = Ok rows ∧ rows !! n = Some r ∧
    (lookup_key "line_no" i = None → Line_No r = VStr "") ∧
    (lookup_key "item_code" i = None → Item_Code r = VStr "") ∧
    (lookup_key "item_description" i = None → Item_Description r = VStr "") ∧
    (lookup_key "quantity" i = None → Quantity r = VInt 0) ∧
    (lookup_key "uom" i = None → UOM r = VStr "") ∧
    (lookup_key "unit_price" i = None → Unit_Price r = VInt 0) ∧
    (lookup_key "total_amount" i = None → Total_Amount r = VInt 0) ∧
    (lookup_key "discount_amount" i = None → Discount_Amount r = VInt 0) ∧
    (lookup_key "vat" i = None → VAT r = VInt 0) ∧
    (lookup_key "amount_incl_vat" i = None → Amount_Incl_VAT r = VInt 0) ∧
    (lookup_key "batch_no" i = None → Batch_No r = VStr "") ∧
    (lookup_key "expiry_date" i = None → Expiry_Date r = VStr "").
Proof.
  intros Hitems Hn. exists (header_row d <$> items), (header_row d i).
  split; [by apply flatten_dict_items|].
  split; [by rewrite list_lookup_fmap, Hn|].
  repeat split; intros Hk; cbn; by apply get_missing.
Qed.

Lemma flatten_missing_field_defaults_witness :
  lookup_key "line_items" Sample.invoice_one
  = Some (VList (VDict <$> [[("line_no", VInt 1); ("quantity", VInt 2)];
                            [("line_no", VInt 2); ("item_code", VStr "X")]])) ∧
  [[("line_no", VInt 1); ("quantity", VInt 2)];
   [("line_no", VInt 2); ("item_code", VStr "X")]] !! 1%nat
  = Some [("line_no", VInt 2); ("item_code", VStr "X")] ∧
  ∃ (rows : list row) (r : row),
    flatten_to_rows (VDict Sample.invoice_one) = Ok rows ∧ rows !! 1%nat = Some r ∧
    Quantity r = VInt 0 ∧ UOM r = VStr "".
Proof.
  split; [reflexivity|]. split; [reflexivity|].
  destruct (flatten_missing_field_defaults Sample.invoice_one
              [[("line_no", VInt 1); ("quantity", VInt 2)];
               [("line_no", VInt 2); ("item_code", VStr "X")]]
              1 [("line_no", VInt 2); ("item_code", VStr "X")] eq_refl eq_refl)
    as (rows & r & Hrows & Hr & _ & _ & _ & Hq & Hu & _).
  exists rows, r. repeat split; [exact Hrows | exact Hr | | ].
  - apply Hq; reflexivity.
  - apply Hu; reflexivity.
Defined.

(** ** The batch loop *)

Section BatchProperties.

Context (generate_text : value → result string)
        (json_loads : string → result value)
        (float_of_str : string → result spec_float)
        (float_reduce : list spec_float → spec_float)
        (new_extractor : result unit).

Local Abbreviation extract := (extract_invoice_data generate_text json_loads).
Local Abbreviation body := (loop_body generate_text json_loads).
Local Abbreviation run := (process_batch generate_text json_loads).

Lemma batch_app_empty_l (b : batch) : batch_app empty_batch b = b.
Proof. destruct b as [rows p out]. unfold batch_app; cbn. f_equal. Qed.

Lemma batch_app_assoc (a b c : batch) :
  batch_app (batch_app a b) c = batch_app a (batch_app b c).
Proof.
  unfold batch_app; cbn. f_equal; [by rewrite app_assoc | lia | by rewrite app_assoc].
Qed.

(** An iteration adds to the accumulators what it adds to empty ones. *)
Lemma loop_body_acc (acc : batch) (f : value) :
  body acc f = batch_app acc (body empty_batch f).
Proof.
  unfold loop_body, batch_app.
  destruct (extract f) as [data printed].
  destruct (truthy data); [destruct (flatten_to_rows data)|]; cbn;
    f_equal; rewrite ?app_nil_r; try reflexivity; lia.
Qed.

Lemma process_loop_acc (l : list value) (acc : batch) :
  process_loop generate_text json_loads l acc = batch_app acc (run l).
Proof.
  unfold process_batch, process_loop. fold empty_batch.
  revert acc. induction l as [|f l IH]; intros acc; cbn [foldl].
  - destruct acc as [rows p out]. unfold batch_app; cbn.
    f_equal; [by rewrite app_nil_r | lia | by rewrite app_nil_r].
  - rewrite (IH (body acc f)), (IH (body empty_batch f)).
    by rewrite (loop_body_acc acc f), batch_app_assoc.
Qed.

Lemma process_batch_cons (f : value) (l : list value) :
  run (f :: l) = batch_app (body empty_batch f) (run l).
Proof.
  unfold process_batch at 1, process_loop. cbn [foldl].
  apply process_loop_acc.
Qed.

Lemma process_batch_app (l k : list value) :
  run (l ++ k) = batch_app (run l) (run k).
Proof.
  induction l as [|f l IH]; cbn [app].
  - symmetry. apply batch_app_empty_l.
  - by rewrite !process_batch_cons, IH, batch_app_assoc.
Qed.

(** What one file adds to the count. *)
Lemma loop_body_processed (f : value) :
  processed (body empty_batch f) = if counted (extract f).1 then 1 else 0.
Proof.
  unfold loop_body, counted.
  destruct (extract f) as [data printed]. cbn [fst].
  destruct (truthy data); [destruct (flatten_to_rows data)|]; reflexivity.
Qed.

(** What a failed extraction adds: a printed line. *)
Lemma loop_body_failed (f : value) (e : exn) :
  generate_text f = Raise e ∨
  (∃ text, generate_text f = Ok text ∧ json_loads (clean_response text) = Raise e) →
  body empty_batch f = {| all_rows := []; processed := 0; output := [PrintError e] |}.
Proof.
  intros Hfail. unfold loop_body, extract_invoice_data.
  destruct Hfail as [-> | (text & -> & Hdec)]; cbn; [reflexivity|].
  by rewrite Hdec.
Qed.

(** C3 (amended). The count the batch returns is the number of files
    whose extraction yielded a value that is true as a Python object and
    that flattens without an exception.  A record without line items (the
    [line_items] key missing, or its list empty) is counted as processed
    when the record has at least one key. *)
Theorem processed_counts_flattened_answers (paths : list value) :
  processed (run paths)
  = Z.of_nat (length (List.filter (λ f, counted (extract f).1) paths)) ∧
  ∀ (f : value) (d : dict),
    (extract f).1 = VDict d →
    d ≠ [] →
    lookup_key "line_items" d = None ∨ lookup_key "line_items" d = Some (VList []) →
    counted (VDict d) = true ∧
    processed (run (paths ++ [f])) = processed (run paths) + 1.
Proof.
  split.
  - induction paths as [|f paths IH]; [reflexivity|].
    rewrite process_batch_cons. cbn [batch_app processed List.filter].
    rewrite loop_body_processed, IH.
    destruct (counted (extract f).1); cbn [length]; lia.
  - intros f d Hd Hne Hitems.
    assert (counted (VDict d) = true) as Hc.
    { unfold counted. rewrite (flatten_no_items d Hitems).
      by destruct d. }
    split; [exact Hc|].
    rewrite process_batch_app, process_batch_cons.
    cbn [batch_app processed]. rewrite loop_body_processed, Hd, Hc.
    unfold process_batch, process_loop; cbn. lia.
Qed.

(** C4. When the extraction of one file of a batch fails (the service
    raises, or its answer does not decode), the exception is printed, the
    file adds no row and is not counted, the files before and after it
    are processed as they are without it and in their order, and the
    failure does not leave the handler: once the extractor has been
    constructed, whenever the statistics of the rows of the other files
    can be computed, the response is the successful one. *)
Theorem failed_extraction_is_skipped
    (pre post : list value) (f : value) (e : exn) (stored_rows : list row) :
  generate_text f = Raise e ∨
  (∃ text, generate_text f = Ok text ∧ json_loads (clean_response text) = Raise e) →
  run (pre ++ f :: post)
  = {| all_rows := all_rows (run pre) ++ all_rows (run post);
       processed := processed (run pre) + processed (run post);
       output := output (run pre) ++ [PrintError e] ++ output (run post) |} ∧
  ∀ s : stats,
    new_extractor = Ok tt →
    compute_stats float_of_str float_reduce
      (all_rows (run pre) ++ all_rows (run post)) = Ok s →
    process_files generate_text json_loads float_of_str float_reduce new_extractor
      (VDict [("file_paths", VList (pre ++ f :: post))]) stored_rows
    = (Json (VDict [("success", VBool true);
                    ("processed", VInt (processed (run pre) + processed (run post)));
                    ("total_rows",
                     VInt (Z.of_nat (length (all_rows (run pre) ++ all_rows (run post)))));
                    ("stats", stats_to_dict s)]) 200,
       all_rows (run pre) ++ all_rows (run post),
       output (run pre) ++ [PrintError e] ++ output (run post)).
Proof.
  intros Hfail.
  assert (run (pre ++ f :: post)
          = {| all_rows := all_rows (run pre) ++ all_rows (run post);
               processed := processed (run pre) + processed (run post);
               output := output (run pre) ++ [PrintError e] ++ output (run post) |})
    as Hrun.
  { rewrite process_batch_app, process_batch_cons, (loop_body_failed f e Hfail).
    unfold batch_app; cbn. f_equal. }
  split; [exact Hrun|].
  intros s Hnew Hs. unfold process_files.
  change (get [("file_paths", VList (pre ++ f :: post))] "file_paths" (VList []))
    with (VList (pre ++ f :: post)).
  assert (truthy (VList (pre ++ f :: post)) = true) as -> by by destruct pre.
  cbn [negb py_iter]. rewrite Hnew, Hrun. cbn [all_rows processed output].
  by rewrite Hs.
Qed.

End BatchProperties.

(** C3 as stated fails: the answer [{}] decodes to a record (with no
    [line_items] key, hence no line items), yet the file is not counted. *)
Lemma empty_object_is_not_counted :
  (extract_invoice_data Sample.empty_object_text Sample.decode (VStr "uploads/1.png")).1
  = VDict [] ∧
  lookup_key "line_items" [] = None ∧
  length (List.filter
            (λ f, is_record (extract_invoice_data Sample.empty_object_text Sample.decode f).1)
            [VStr "uploads/1.png"]) = 1%nat ∧
  processed (process_batch Sample.empty_object_text Sample.decode [VStr "uploads/1.png"]) = 0.
Proof. repeat split. Qed.

Lemma processed_counts_flattened_answers_witness :
  (extract_invoice_data Sample.three_files Sample.decode (VStr "uploads/header.png")).1
  = VDict [("invoice_number", VStr "INV9")] ∧
  [("invoice_number", VStr "INV9")] ≠ ([] : dict) ∧
  (lookup_key "line_items" [("invoice_number", VStr "INV9")] = None ∨
   lookup_key "line_items" [("invoice_number", VStr "INV9")] = Some (VList [])) ∧
  processed (process_batch Sample.three_files Sample.decode
               ([VStr "uploads/1.png"] ++ [VStr "uploads/header.png"]))
  = processed (process_batch Sample.three_files Sample.decode [VStr "uploads/1.png"]) + 1.
Proof.
  split; [reflexivity|]. split; [discriminate|]. split; [left; reflexivity|].
  apply (proj2 (processed_counts_flattened_answers Sample.three_files Sample.decode
                  [VStr "uploads/1.png"])
           (VStr "uploads/header.png") [("invoice_number", VStr "INV9")]).
  - reflexivity.
  - discriminate.
  - left; reflexivity.
Defined.

Lemma failed_extraction_is_skipped_witness :
  (Sample.three_files (VStr "uploads/2.png") = Raise (ServiceError "unavailable") ∨
   (∃ text, Sample.three_files (VStr "uploads/2.png") = Ok text ∧
            Sample.decode (clean_response text) = Raise (ServiceError "unavailable"))) ∧
  Sample.extractor_ready = Ok tt ∧
  compute_stats Sample.no_float Sample.first_to_last
    (all_rows (process_batch Sample.three_files Sample.decode [VStr "uploads/1.png"])
     ++ all_rows (process_batch Sample.three_files Sample.decode [VStr "uploads/3.png"]))
  = Ok {| total_documents := 2; total_line_items := 3; total_quantity := 9;
          total_value := VFloat (binary_normalize 53 1024 125 0 false) |} ∧
  processed (process_batch Sample.three_files Sample.decode
               ([VStr "uploads/1.png"] ++ VStr "uploads/2.png" :: [VStr "uploads/3.png"]))
  = 2 ∧
  (process_files Sample.three_files Sample.decode Sample.no_float
     Sample.first_to_last Sample.extractor_ready
     (VDict [("file_paths",
              VList ([VStr "uploads/1.png"] ++ VStr "uploads/2.png"
                       :: [VStr "uploads/3.png"]))]) []).1.1
  = Json (VDict [("success", VBool true); ("processed", VInt 2); ("total_rows", VInt 3);
                 ("stats",
                  VDict [("total_documents", VInt 2); ("total_line_items", VInt 3);
                         ("total_quantity", VInt 9);
                         ("total_value",
                          VFloat (binary_normalize 53 1024 125 0 false))])]) 200.
Proof.
  assert (compute_stats Sample.no_float Sample.first_to_last
            (all_rows (process_batch Sample.three_files Sample.decode [VStr "uploads/1.png"])
             ++ all_rows (process_batch Sample.three_files Sample.decode
                            [VStr "uploads/3.png"]))
          = Ok {| total_documents := 2; total_line_items := 3; total_quantity := 9;
                  total_value := VFloat (binary_normalize 53 1024 125 0 false) |})
    as Hstats by (vm_compute; reflexivity).
  split; [left; reflexivity|]. split; [reflexivity|]. split; [exact Hstats|].
  destruct (failed_extraction_is_skipped Sample.three_files Sample.decode
              Sample.no_float Sample.first_to_last Sample.extractor_ready
              [VStr "uploads/1.png"] [VStr "uploads/3.png"]
              (VStr "uploads/2.png") (ServiceError "unavailable") []
              (or_introl eq_refl)) as [Hrun Hhandle].
  split.
  - rewrite Hrun. reflexivity.
  - rewrite (Hhandle _ eq_refl Hstats). reflexivity.
Defined.

(** ** The statistics *)

Section ColumnsOfText.

Lemma text_column_no_real (col : list value) :
  forallb text_or_none col = true → existsb Pandas.is_real col = false.
Proof.
  induction col as [|v col IH]; [reflexivity|]. cbn [forallb existsb].
  intros [Hv Hcol]%andb_true_iff. rewrite (IH Hcol). by destruct v.
Qed.

(** A column of text and nulls is stored as it is. *)
Lemma text_column_values (col : list value) :
  forallb text_or_none col = true → Pandas.column_values col = col.
Proof.
  intros Hcol. unfold Pandas.column_values, Pandas.infer_dtype.
  rewrite (text_column_no_real col Hcol), andb_false_r. cbn [andb].
  by repeat (case_match; try reflexivity).
Qed.

Lemma text_column_notna (col : list value) :
  forallb text_or_none col = true →
  List.filter (λ v, negb (Pandas.isna v)) col = VStr <$> omap text_of col.
Proof.
  induction col as [|v col IH]; [reflexivity|]. cbn [forallb].
  intros [Hv Hcol]%andb_true_iff.
  destruct v; try discriminate; cbn; by rewrite (IH Hcol).
Qed.

Lemma text_hashable (l : list string) :
  forallb Pandas.hashable (VStr <$> l) = true.
Proof. induction l as [|x l IH]; [reflexivity|]. exact IH. Qed.

Lemma text_seen (x : string) (seen : list string) :
  existsb (Num.py_eqb (VStr x)) (VStr <$> seen) = true ↔ x ∈ seen.
Proof.
  induction seen as [|y seen IH]; cbn [fmap list_fmap existsb].
  - split; [discriminate | by intros ?%elem_of_nil].
  - rewrite orb_true_iff, IH, elem_of_cons. cbn [Num.py_eqb].
    by rewrite String.eqb_eq.
Qed.

(** The table of distinct values: no duplicate, and the values met. *)
Lemma text_uniques (l seen : list string) :
  ∃ u : list string,
    Pandas.uniques (VStr <$> seen) (VStr <$> l) = VStr <$> u ∧
    (NoDup seen → NoDup u) ∧
    ∀ x, x ∈ u ↔ x ∈ seen ∨ x ∈ l.
Proof.
  revert seen. induction l as [|y l IH]; intros seen.
  - exists seen. split; [reflexivity|]. split; [done|].
    intros x. rewrite elem_of_nil. tauto.
  - cbn [fmap list_fmap Pandas.uniques].
    destruct (existsb (Num.py_eqb (VStr y)) (VStr <$> seen)) eqn:Hy.
    + apply text_seen in Hy.
      destruct (IH seen) as (u & Hu & Hnd & Hin).
      exists u. split; [exact Hu|]. split; [exact Hnd|].
      intros x. rewrite Hin, elem_of_cons. split; [tauto|].
      intros [?|[->|?]]; tauto.
    + assert (y ∉ seen) as Hnotin.
      { intros Hin%text_seen. congruence. }
      destruct (IH (seen ++ [y])) as (u & Hu & Hnd & Hin).
      exists u. split; [by rewrite <- Hu, fmap_app|].
      split.
      * intros Hseen. apply Hnd, NoDup_app. split; [exact Hseen|].
        split; [|apply NoDup_singleton].
        intros x Hx ->%list_elem_of_singleton. contradiction.
      * intros x. rewrite Hin, elem_of_app, list_elem_of_singleton, elem_of_cons.
        tauto.
Qed.

(** [nunique] of a column of text and nulls is the number of distinct
    texts. *)
Lemma nunique_text_column (col : list value) :
  forallb text_or_none col = true →
  Pandas.nunique col
  = Ok (Z.of_nat (size (list_to_set (omap text_of col) : gset string))).
Proof.
  intros Hcol. unfold Pandas.nunique.
  rewrite (text_column_values col Hcol), (text_column_notna col Hcol), text_hashable.
  destruct (text_uniques (omap text_of col) []) as (u & Hu & Hnd & Hin).
  change (VStr <$> []) with (@nil value) in Hu. rewrite Hu, length_fmap.
  do 2 f_equal. rewrite <- (size_list_to_set (C := gset string) u) by (apply Hnd, NoDup_nil_2).
  f_equal. apply set_eq. intros x. rewrite !elem_of_list_to_set, Hin, elem_of_nil.
  tauto.
Qed.

End ColumnsOfText.

Lemma forallb_fmap {A B} (p : B → bool) (g : A → B) (l : list A) :
  forallb p (g <$> l) = forallb (λ a, p (g a)) l.
Proof. induction l as [|a l IH]; [reflexivity|]. cbn. by rewrite IH. Qed.

(** [total_documents] of rows whose invoice numbers are text or null. *)
Lemma total_documents_text (rows : list row) :
  forallb (λ r, text_or_none (Invoice_Number r)) rows = true →
  stat_total_documents rows = Ok (Z.of_nat (size (invoice_numbers rows))).
Proof.
  intros Hrows. unfold stat_total_documents, invoice_numbers.
  destruct rows as [|r rows]; [reflexivity|]. cbn [df_empty negb].
  apply nunique_text_column. by rewrite forallb_fmap.
Qed.

(** Every row of a record carries the invoice number of the record. *)
Lemma mapM_item_row_header (h1 h2 h3 h4 h5 : value) (items : list value) (rows : list row) :
  mapM (item_row h1 h2 h3 h4 h5) items = Ok rows →
  Forall (λ r, Invoice_Number r = h1) rows.
Proof.
  revert rows. induction items as [|item items IH]; intros rows.
  - intros [= <-]. constructor.
  - change (mapM (item_row h1 h2 h3 h4 h5) (item :: items))
      with (item_row h1 h2 h3 h4 h5 item ≫= λ y,
            mapM (item_row h1 h2 h3 h4 h5) items ≫= λ k, mret (y :: k)).
    destruct item; try discriminate. cbn [item_row mbind result_bind].
    destruct (mapM (item_row h1 h2 h3 h4 h5) items) as [rows'|]; [|discriminate].
    intros [= <-]. constructor; [reflexivity | by apply IH].
Qed.

Lemma flatten_invoice_number (d : dict) (rows : list row) :
  flatten_to_rows (VDict d) = Ok rows →
  Forall (λ r, Invoice_Number r = get d "invoice_number" (VStr "")) rows.
Proof.
  unfold flatten_to_rows. destruct (truthy (VDict d)); cbn [negb].
  - destruct (py_iter (get d "line_items" (VList []))) as [items|]; [|discriminate].
    cbn [mbind result_bind]. apply mapM_item_row_header.
  - intros [= <-]. constructor.
Qed.

Lemma invoice_numbers_app (rows1 rows2 : list row) :
  invoice_numbers (rows1 ++ rows2) = invoice_numbers rows1 ∪ invoice_numbers rows2.
Proof. unfold invoice_numbers. by rewrite fmap_app, omap_app, list_to_set_app_L. Qed.

Lemma invoice_numbers_one (s : string) (rows : list row) :
  rows ≠ [] →
  Forall (λ r, Invoice_Number r = VStr s) rows →
  invoice_numbers rows = {[ s ]}.
Proof.
  intros Hne Hall. unfold invoice_numbers. apply set_eq. intros x.
  rewrite elem_of_list_to_set, elem_of_singleton, list_elem_of_omap. split.
  - intros (v & (r & -> & Hr)%list_elem_of_fmap & Hv).
    rewrite Forall_forall in Hall. rewrite (Hall r Hr) in Hv. by injection Hv.
  - intros ->. destruct rows as [|r rows]; [done|].
    exists (VStr s). split; [|reflexivity].
    apply list_elem_of_fmap. exists r. split; [|by left].
    by inversion Hall.
Qed.

(** C5. Over rows whose invoice numbers are text (or null, which is not a
    value), [total_documents] is the number of distinct invoice numbers
    that appear among the rows; the rows of two records that share an
    invoice number count for 1, those of two records with different
    invoice numbers for 2. *)
Theorem total_documents_counts_distinct_invoice_numbers :
  (∀ rows : list row,
     forallb (λ r, text_or_none (Invoice_Number r)) rows = true →
     stat_total_documents rows = Ok (Z.of_nat (size (invoice_numbers rows)))) ∧
  (∀ (d1 d2 : dict) (rows1 rows2 : list row) (s1 s2 : string),
     flatten_to_rows (VDict d1) = Ok rows1 →
     flatten_to_rows (VDict d2) = Ok rows2 →
     rows1 ≠ [] → rows2 ≠ [] →
     lookup_key "invoice_number" d1 = Some (VStr s1) →
     lookup_key "invoice_number" d2 = Some (VStr s2) →
     stat_total_documents (rows1 ++ rows2) = Ok (if decide (s1 = s2) then 1 else 2)).
Proof.
  split; [exact total_documents_text|].
  intros d1 d2 rows1 rows2 s1 s2 H1 H2 Hne1 Hne2 Hs1 Hs2.
  apply flatten_invoice_number in H1, H2.
  unfold get in H1, H2. rewrite Hs1 in H1. rewrite Hs2 in H2. cbn [default] in H1, H2.
  rewrite total_documents_text.
  - rewrite invoice_numbers_app.
    rewrite (invoice_numbers_one s1 rows1 Hne1 H1), (invoice_numbers_one s2 rows2 Hne2 H2).
    destruct (decide (s1 = s2)) as [->|Hdiff].
    + by rewrite union_idemp_L, size_singleton.
    + rewrite size_union by set_solver. by rewrite !size_singleton.
  - rewrite forallb_app, andb_true_iff, !forallb_forall.
    rewrite Forall_forall in H1, H2.
    split; intros r Hr%list_elem_of_In.
    + by rewrite (H1 r Hr).
    + by rewrite (H2 r Hr).
Qed.

Lemma total_documents_counts_distinct_invoice_numbers_witness :
  flatten_to_rows (VDict Sample.invoice_one)
  = Ok (header_row Sample.invoice_one
          <$> [[("line_no", VInt 1); ("quantity", VInt 2)];
               [("line_no", VInt 2); ("item_code", VStr "X")]]) ∧
  flatten_to_rows (VDict (Sample.invoice_two "INV2"))
  = Ok (header_row (Sample.invoice_two "INV2")
          <$> [[("line_no", VInt 1); ("quantity", VInt 7)]]) ∧
  lookup_key "invoice_number" Sample.invoice_one = Some (VStr "INV1") ∧
  lookup_key "invoice_number" (Sample.invoice_two "INV2") = Some (VStr "INV2") ∧
  stat_total_documents
    ((header_row Sample.invoice_one
        <$> [[("line_no", VInt 1); ("quantity", VInt 2)];
             [("line_no", VInt 2); ("item_code", VStr "X")]])
     ++ (header_row (Sample.invoice_two "INV2")
           <$> [[("line_no", VInt 1); ("quantity", VInt 7)]]))
  = Ok 2.
Proof.
  split; [reflexivity|]. split; [reflexivity|].
  split; [reflexivity|]. split; [reflexivity|].
  apply (proj2 total_documents_counts_distinct_invoice_numbers
           Sample.invoice_one (Sample.invoice_two "INV2") _ _ "INV1" "INV2");
    try reflexivity; discriminate.
Defined.





(** *** Columns stored as doubles *)



Lemma digits2_bound (m : positive) :
  Z.pos m < 2 ^ Z.pos (digits2_pos m).
Proof.
  induction m as [m IH|m IH|]; cbn [digits2_pos].
  - rewrite Pos2Z.inj_succ, Z.pow_succ_r by lia. lia.
  - rewrite Pos2Z.inj_succ, Z.pow_succ_r by lia. lia.
  - reflexivity.
Qed.












(** *** Sums of doubles in any order *)












(** The first-to-last sum is a sum in some order. *)
Lemma first_to_last_order (l : list spec_float) :
  sums_in_some_order Sample.first_to_last l.
Proof.
  unfold Sample.first_to_last.
  assert (∀ (t : sum_tree) (l : list spec_float),
            ∃ t', leaves t' = leaves t ++ l ∧
                  foldl Num.float_add (tree_sum t) l = tree_sum t') as Hfold.
  { clear l. intros t l. revert t. induction l as [|f l IH]; intros t.
    - exists t. by rewrite app_nil_r.
    - destruct (IH (Node t (Leaf f))) as (t' & Hl & Hs). exists t'.
      split; [|exact Hs]. rewrite Hl. cbn [leaves]. by rewrite <- app_assoc. }
  destruct (Hfold (Leaf (S754_zero false)) l) as (t & Hl & Hs).
  exists t, [S754_zero false]. split; [|split].
  - repeat constructor. by exists false.
  - by rewrite Hl.
  - exact Hs.
Qed.








(** C8. The statistics of the empty row set are computed without an
    exception and are all zero; the total value is the integer 0, which as
    a number is the floating-point 0.0. *)
Theorem statistics_of_no_rows (float_of_str : string → result spec_float)
    (float_reduce : list spec_float → spec_float) :
  compute_stats float_of_str float_reduce []
  = Ok {| total_documents := 0; total_line_items := 0;
          total_quantity := 0; total_value := VInt 0 |} ∧
  Num.py_eqb (VInt 0) (VFloat (S754_zero false)) = true.
Proof. split; reflexivity. Qed.

(** ** Upload *)

Section FileNames.

Lemma append_cons (c : ascii) (a b : string) : String c a +:+ b = String c (a +:+ b).
Proof. reflexivity. Qed.

(** Either the name has no dot, or [rsplit] cuts it at its last dot. *)
Lemma rsplit_dot_cases (s : string) :
  (Str.has_dot s = false ∧ Str.rsplit_dot s = [s]) ∨
  (∃ a b, Str.rsplit_dot s = [a; b] ∧ s = a +:+ "." +:+ b ∧
          Str.has_dot b = false ∧ Str.has_dot s = true).
Proof.
  induction s as [|c r IH]; [by left|].
  cbn [Str.rsplit_dot Str.has_dot].
  destruct IH as [[Hno ->] | (a & b & -> & Hr & Hb & Hdot)].
  - destruct (Ascii.eqb c ".") eqn:Hc.
    + apply Ascii.eqb_eq in Hc as ->. right. exists "", r. by rewrite Hno.
    + left. by rewrite Hno.
  - right. exists (String c a), b. rewrite Hdot, orb_true_r, append_cons, <- Hr.
    done.
Qed.

Lemma has_dot_append (stem ext : string) : Str.has_dot (stem +:+ "." +:+ ext) = true.
Proof.
  induction stem as [|c stem IH]; [reflexivity|].
  rewrite append_cons. cbn [Str.has_dot]. by rewrite IH, orb_true_r.
Qed.

Lemma rsplit_dot_append (stem ext : string) :
  Str.has_dot ext = false → Str.rsplit_dot (stem +:+ "." +:+ ext) = [stem; ext].
Proof.
  intros Hext. induction stem as [|c stem IH].
  - change ("" +:+ "." +:+ ext) with (String "." ext). cbn [Str.rsplit_dot].
    destruct (rsplit_dot_cases ext) as [[_ ->] | (a & b & _ & _ & _ & Hdot)];
      [reflexivity | congruence].
  - rewrite append_cons. cbn [Str.rsplit_dot]. by rewrite IH.
Qed.

(** [allowed_file] accepts the names whose text after the last dot is,
    in lower case, one of the allowed extensions. *)
Lemma allowed_file_iff (name : string) :
  allowed_file name = true ↔
  ∃ stem ext, name = stem +:+ "." +:+ ext ∧ Str.has_dot ext = false ∧
              Str.lower ext ∈ ALLOWED_EXTENSIONS.
Proof.
  unfold allowed_file. split.
  - intros [Hdot Hext]%andb_true_iff.
    destruct (rsplit_dot_cases name) as [[Hno _] | (a & b & Hsplit & Hname & Hb & _)];
      [congruence|].
    rewrite Hsplit in Hext. cbn in Hext. apply bool_decide_eq_true in Hext.
    by exists a, b.
  - intros (stem & ext & -> & Hno & Hin).
    rewrite has_dot_append, (rsplit_dot_append stem ext Hno). cbn.
    by apply bool_decide_eq_true.
Qed.

End FileNames.

Section UploadProperties.

Context (secure_filename : string → string) (uuid4 : nat → string).

Local Abbreviation store := (upload_one secure_filename uuid4).

(** The loop appends one entry per accepted part, in order, with the
    sanitised name and the size of the part. *)
Lemma upload_loop (l : list file_storage) (dk : disk) (ups : list uploaded) :
  ∃ (dk' : disk) (new : list uploaded),
    foldl store (dk, ups) l = (dk', ups ++ new) ∧
    original_name <$> new = (λ f, secure_filename (filename f)) <$> List.filter accepted l ∧
    stored_size <$> new = content_size <$> List.filter accepted l.
Proof.
  revert dk ups. induction l as [|f l IH]; intros dk ups.
  - exists dk, []. by rewrite app_nil_r.
  - cbn [foldl List.filter]. unfold upload_one at 2. fold (accepted f).
    destruct (accepted f).
    + match goal with |- context [foldl _ (?d, ?u) l] =>
        destruct (IH d u) as (dk' & new & -> & Hnames & Hsizes) end.
      eexists dk', (_ :: new). rewrite <- app_assoc. split; [reflexivity|].
      cbn [fmap list_fmap original_name stored_size].
      rewrite lookup_total_insert_eq. split; f_equal; assumption.
    + apply IH.
Qed.

Lemma le_sum_Z (l : list Z) (x : Z) :
  Forall (λ z, 0 ≤ z) l → x ∈ l → x ≤ sum_Z l.
Proof.
  unfold sum_Z.
  induction 1 as [|z l Hz Hl IH]; [by intros ?%elem_of_nil|].
  assert (0 ≤ foldr Z.add 0 l) as Hsum.
  { clear IH. induction Hl as [|w l Hw Hl IH]; cbn [foldr]; [done | lia]. }
  intros [-> | Hx%IH]%elem_of_cons; cbn [foldr]; lia.
Qed.

(** C9 (amended). A request longer than 16 MiB is refused as a whole
    (status 413).  Otherwise the request is not aborted: the returned
    list has, in the order of the request, one entry for each part whose
    name is not empty and whose text after the last dot is, in lower
    case, one of png, jpg, jpeg and pdf; every other part is left out
    without an error, and every stored part is within 16 MiB. *)
Theorem upload_keeps_allowed_extensions (req : upload_request) (dk : disk) :
  well_formed req →
  existsb (λ p, String.eqb p.1 "files[]") (files req) = true →
  (MAX_CONTENT_LENGTH < content_length req →
     upload_files secure_filename uuid4 req dk = (Abort 413, dk)) ∧
  (content_length req ≤ MAX_CONTENT_LENGTH →
     ∃ (ups : list uploaded) (dk' : disk),
       upload_files secure_filename uuid4 req dk
       = (Json (VDict [("success", VBool true);
                       ("files", VList (uploaded_to_dict <$> ups));
                       ("count", VInt (Z.of_nat (length ups)))]) 200, dk') ∧
       original_name <$> ups
       = (λ f, secure_filename (filename f))
           <$> List.filter accepted (getlist "files[]" (files req)) ∧
       stored_size <$> ups
       = content_size <$> List.filter accepted (getlist "files[]" (files req)) ∧
       Forall (λ u, stored_size u ≤ MAX_CONTENT_LENGTH) ups) ∧
  (∀ f : file_storage,
     accepted f = true ↔
     ∃ stem ext, filename f = stem +:+ "." +:+ ext ∧ Str.has_dot ext = false ∧
                 Str.lower ext ∈ ALLOWED_EXTENSIONS).
Proof.
  intros [Hpos Hlen] Hfield. split; [|split].
  - intros Hbig. unfold upload_files.
    by rewrite (proj2 (Z.ltb_lt _ _) Hbig).
  - intros Hsmall. unfold upload_files.
    rewrite (proj2 (Z.ltb_ge _ _) Hsmall), Hfield. cbn [negb].
    destruct (upload_loop (getlist "files[]" (files req)) dk [])
      as (dk' & ups & -> & Hnames & Hsizes).
    exists ups, dk'. cbn [app]. split; [reflexivity|].
    split; [exact Hnames|]. split; [exact Hsizes|].
    apply Forall_forall. intros u Hu.
    assert (stored_size u ∈ stored_size <$> ups) as Hin
      by (apply list_elem_of_fmap; eauto).
    rewrite Hsizes in Hin. apply list_elem_of_fmap in Hin as (f & -> & Hf).
    apply list_elem_of_In, filter_In in Hf as [Hf _].
    apply list_elem_of_In in Hf. unfold getlist in Hf.
    apply list_elem_of_fmap in Hf as (p & -> & Hp).
    apply list_elem_of_In, filter_In in Hp as [Hp _].
    apply list_elem_of_In in Hp.
    etrans; [|exact Hsmall]. etrans; [|exact Hlen].
    apply le_sum_Z.
    + by apply Forall_fmap.
    + apply list_elem_of_fmap. by exists p.
  - intros f. unfold accepted. rewrite <- allowed_file_iff. split.
    + by intros [_ ?]%andb_true_iff.
    + intros Hf. rewrite Hf, andb_true_r.
      destruct (filename f); [discriminate | reflexivity].
Qed.

End UploadProperties.

(** C9 as stated fails on the size: a part of 17 MiB is not left out of a
    successful answer; the request that carries it is refused. *)
Lemma oversize_upload_is_refused :
  getlist "files[]" (files Sample.oversize_upload)
  = [{| filename := "big.png"; content_size := 17 * 1024 * 1024 |}] ∧
  MAX_CONTENT_LENGTH < 17 * 1024 * 1024 ∧
  upload_files Sample.keep_name Sample.numbered Sample.oversize_upload Sample.empty_disk
  = (Abort 413, Sample.empty_disk) ∧
  upload_files Sample.keep_name Sample.numbered Sample.oversize_upload Sample.empty_disk
  ≠ (Json (VDict [("success", VBool true); ("files", VList []); ("count", VInt 0)]) 200,
     Sample.empty_disk).
Proof. repeat split. discriminate. Qed.

Lemma upload_keeps_allowed_extensions_witness :
  well_formed Sample.mixed_upload ∧
  existsb (λ p, String.eqb p.1 "files[]") (files Sample.mixed_upload) = true ∧
  content_length Sample.mixed_upload ≤ MAX_CONTENT_LENGTH ∧
  ∃ (ups : list uploaded) (dk' : disk),
    upload_files Sample.keep_name Sample.numbered Sample.mixed_upload Sample.empty_disk
    = (Json (VDict [("success", VBool true);
                    ("files", VList (uploaded_to_dict <$> ups));
                    ("count", VInt (Z.of_nat (length ups)))]) 200, dk') ∧
    original_name <$> ups = ["scan.PNG"; "a.b.pdf"] ∧
    stored_size <$> ups = [1200; 2000].
Proof.
  assert (well_formed Sample.mixed_upload) as Hwf.
  { split; [repeat constructor; vm_compute; congruence | vm_compute; congruence]. }
  assert (content_length Sample.mixed_upload ≤ MAX_CONTENT_LENGTH) as Hsmall
    by (vm_compute; congruence).
  split; [exact Hwf|]. split; [reflexivity|]. split; [exact Hsmall|].
  destruct (proj1 (proj2 (upload_keeps_allowed_extensions Sample.keep_name Sample.numbered
                            Sample.mixed_upload Sample.empty_disk Hwf eq_refl)) Hsmall)
    as (ups & dk' & Hup & Hnames & Hsizes & _).
  exists ups, dk'. split; [exact Hup|]. split; [exact Hnames | exact Hsizes].
Defined.

(** ** The stored dataset *)

(** C10. A request to process whose list of file paths is missing or empty
    is answered with the request-level error (status 400) and leaves the
    stored rows as they were, so the data operation still returns them; the
    stored rows are replaced only by a request that runs the loop, and then
    by the rows of that batch.  The loop runs when the list is not empty
    and the construction of the extractor returns; when the construction
    raises, the stored rows are kept and nothing is printed. *)
Theorem process_without_files_keeps_dataset
    (generate_text : value → result string) (json_loads : string → result value)
    (float_of_str : string → result spec_float)
    (float_reduce : list spec_float → spec_float) (new_extractor : result unit)
    (data : dict) (stored_rows : list row) :
  lookup_key "file_paths" data = None ∨ lookup_key "file_paths" data = Some (VList []) →
  process_files generate_text json_loads float_of_str float_reduce new_extractor
    (VDict data) stored_rows
  = (Json (VDict [("error", VStr "No files to process")]) 400, stored_rows, []) ∧
  get_data (process_files generate_text json_loads float_of_str float_reduce new_extractor
              (VDict data) stored_rows).1.2
  = Json (VDict [("data", VList (row_to_dict <$> stored_rows));
                 ("count", VInt (Z.of_nat (length stored_rows)))]) 200 ∧
  (∀ paths : list value,
     paths ≠ [] →
     new_extractor = Ok tt →
     (process_files generate_text json_loads float_of_str float_reduce new_extractor
        (VDict [("file_paths", VList paths)]) stored_rows).1.2
     = all_rows (process_batch generate_text json_loads paths)) ∧
  (∀ (paths : list value) (e : exn),
     paths ≠ [] →
     new_extractor = Raise e →
     process_files generate_text json_loads float_of_str float_reduce new_extractor
       (VDict [("file_paths", VList paths)]) stored_rows
     = (Unhandled e, stored_rows, [])).
Proof.
  intros Hpaths.
  assert (process_files generate_text json_loads float_of_str float_reduce new_extractor
            (VDict data) stored_rows
          = (Json (VDict [("error", VStr "No files to process")]) 400, stored_rows, []))
    as Herr.
  { unfold process_files, get. by destruct Hpaths as [-> | ->]. }
  split; [exact Herr|]. split; [by rewrite Herr|]. split.
  - intros paths Hne Hnew. unfold process_files.
    change (get [("file_paths", VList paths)] "file_paths" (VList [])) with (VList paths).
    destruct paths as [|p paths]; [done|]. cbn [truthy negb py_iter]. rewrite Hnew.
    by destruct (compute_stats _ _ _).
  - intros paths e Hne Hnew. unfold process_files.
    change (get [("file_paths", VList paths)] "file_paths" (VList [])) with (VList paths).
    destruct paths as [|p paths]; [done|]. cbn [truthy negb]. by rewrite Hnew.
Qed.

Lemma process_without_files_keeps_dataset_witness :
  (lookup_key "file_paths" [("other", VInt 1)] = None ∨
   lookup_key "file_paths" [("other", VInt 1)] = Some (VList [])) ∧
  process_files Sample.three_files Sample.decode Sample.no_float
    Sample.first_to_last Sample.extractor_ready
    (VDict [("other", VInt 1)])
    [header_row Sample.invoice_one [("line_no", VInt 1)]]
  = (Json (VDict [("error", VStr "No files to process")]) 400,
     [header_row Sample.invoice_one [("line_no", VInt 1)]], []) ∧
  [VStr "a"; VStr "b"; VStr "c"] ≠ [] ∧
  Sample.extractor_ready = Ok tt ∧
  (process_files Sample.three_files Sample.decode Sample.no_float
     Sample.first_to_last Sample.extractor_ready
     (VDict [("file_paths", VList [VStr "a"; VStr "b"; VStr "c"])])
     [header_row Sample.invoice_one [("line_no", VInt 1)]]).1.2
  = all_rows (process_batch Sample.three_files Sample.decode
                [VStr "a"; VStr "b"; VStr "c"]).
Proof.
  assert ([VStr "a"; VStr "b"; VStr "c"] ≠ []) as Hne by discriminate.
  split; [left; reflexivity|].
  split.
  { apply (proj1 (process_without_files_keeps_dataset Sample.three_files Sample.decode
                    Sample.no_float Sample.first_to_last Sample.extractor_ready
                    [("other", VInt 1)]
                    [header_row Sample.invoice_one [("line_no", VInt 1)]]
                    (or_introl eq_refl))). }
  split; [exact Hne|]. split; [reflexivity|].
  apply (proj1 (proj2 (proj2
           (process_without_files_keeps_dataset Sample.three_files Sample.decode
              Sample.no_float Sample.first_to_last Sample.extractor_ready
              [("other", VInt 1)]
              [header_row Sample.invoice_one [("line_no", VInt 1)]]
              (or_introl eq_refl))))
           [VStr "a"; VStr "b"; VStr "c"] Hne eq_refl).
Defined.

(** * Further properties *)

(** ** The flattener: failures, values kept, keys read *)

Lemma mapM_item_row_records (h1 h2 h3 h4 h5 : value) (items : list value) :
  (forallb is_record items = true →
   ∃ rows, mapM (item_row h1 h2 h3 h4 h5) items = Ok rows ∧ length rows = length items) ∧
  (forallb is_record items = false →
   mapM (item_row h1 h2 h3 h4 h5) items = Raise AttributeError).
Proof.
  induction items as [|item items [IHok IHbad]].
  - split; [by exists [] | discriminate].
  - change (mapM (item_row h1 h2 h3 h4 h5) (item :: items))
      with (item_row h1 h2 h3 h4 h5 item ≫= λ y,
            mapM (item_row h1 h2 h3 h4 h5) items ≫= λ k, mret (y :: k)).
    cbn [forallb]. split.
    + intros [Hitem Hrest]%andb_true_iff.
      destruct (IHok Hrest) as (rows & -> & Hlen).
      destruct item; try discriminate. eexists. split; [reflexivity|].
      cbn [length]. by rewrite Hlen.
    + destruct item; try reflexivity. cbn [is_record andb item_row mbind result_bind].
      intros Hrest. by rewrite (IHbad Hrest).
Qed.

(** X1. Flattening is all or nothing: with every line item an object there is
    one row per item; as soon as one item is not an object (a number, a
    text, a list, or the characters or keys met when [line_items] is itself
    a text or an object) the call raises [AttributeError] and returns no
    row at all. *)
Theorem flatten_all_or_nothing (d : dict) (items : list value) :
  d ≠ [] →
  py_iter (get d "line_items" (VList [])) = Ok items →
  (forallb is_record items = true →
   ∃ rows, flatten_to_rows (VDict d) = Ok rows ∧ length rows = length items) ∧
  (forallb is_record items = false →
   flatten_to_rows (VDict d) = Raise AttributeError).
Proof.
  intros Hne Hiter. unfold flatten_to_rows.
  assert (truthy (VDict d) = true) as -> by by destruct d.
  cbn [negb]. rewrite Hiter. cbn [mbind result_bind].
  apply mapM_item_row_records.
Qed.

Lemma flatten_all_or_nothing_witness :
  [("line_items", VStr "ab")] ≠ ([] : dict) ∧
  py_iter (get [("line_items", VStr "ab")] "line_items" (VList []))
  = Ok [VStr "a"; VStr "b"] ∧
  forallb is_record [VStr "a"; VStr "b"] = false ∧
  flatten_to_rows (VDict [("line_items", VStr "ab")]) = Raise AttributeError.
Proof.
  split; [discriminate|]. split; [reflexivity|]. split; [reflexivity|].
  apply (proj2 (flatten_all_or_nothing [("line_items", VStr "ab")]
                  [VStr "a"; VStr "b"] ltac:(discriminate) eq_refl)).
  reflexivity.
Defined.

(** X2. An answer that is not an object raises [AttributeError] unless it is
    false as a Python object (null, false, 0, 0.0, the empty text or list),
    which gives no row; a record whose [line_items] cannot be iterated
    (null, a boolean, a number) raises the [TypeError] of the loop. *)
Theorem flatten_failure_modes :
  (∀ v : value,
     is_record v = false →
     flatten_to_rows v = if truthy v then Raise AttributeError else Ok []) ∧
  (∀ (d : dict) (v : value) (e : exn),
     lookup_key "line_items" d = Some v →
     py_iter v = Raise e →
     e = TypeError ∧ flatten_to_rows (VDict d) = Raise TypeError).
Proof.
  split.
  - intros v Hv. unfold flatten_to_rows.
    destruct (truthy v); cbn [negb]; [|reflexivity].
    by destruct v.
  - intros d v e Hd Hv.
    assert (e = TypeError) as -> by (destruct v; cbn in Hv; congruence).
    split; [reflexivity|]. unfold flatten_to_rows.
    rewrite (lookup_key_nonempty _ _ _ Hd). cbn [negb].
    replace (get d "line_items" (VList [])) with v
      by (unfold get; by rewrite Hd).
    by rewrite Hv.
Qed.

Lemma flatten_failure_modes_witness :
  lookup_key "line_items" [("invoice_number", VStr "INV1"); ("line_items", VNone)]
  = Some VNone ∧
  py_iter VNone = Raise TypeError ∧
  flatten_to_rows (VDict [("invoice_number", VStr "INV1"); ("line_items", VNone)])
  = Raise TypeError.
Proof.
  split; [reflexivity|]. split; [reflexivity|].
  apply (proj2 flatten_failure_modes
           [("invoice_number", VStr "INV1"); ("line_items", VNone)]
           VNone TypeError eq_refl eq_refl).
Defined.

Lemma get_present (i : dict) (k : string) (dflt v : value) :
  lookup_key k i = Some v → get i k dflt = v.
Proof. intros H. unfold get. by rewrite H. Qed.

(** X3. No value is validated or converted: a field present in the line item
    reaches the row as it is, whatever its type, null included (the
    default is for a missing key only). *)
Theorem flatten_keeps_present_values
    (d : dict) (items : list dict) (n : nat) (i : dict) :
  lookup_key "line_items" d = Some (VList (VDict <$> items)) →
  items !! n = Some i →
  ∃ (rows : list row) (r : row),
    flatten_to_rows (VDict d) = Ok rows ∧ rows !! n = Some r ∧
    (∀ v, lookup_key "line_no" i = Some v → Line_No r = v) ∧
    (∀ v, lookup_key "item_code" i = Some v → Item_Code r = v) ∧
    (∀ v, lookup_key "item_description" i = Some v → Item_Description r = v) ∧
    (∀ v, lookup_key "quantity" i = Some v → Quantity r = v) ∧
    (∀ v, lookup_key "uom" i = Some v → UOM r = v) ∧
    (∀ v, lookup_key "unit_price" i = Some v → Unit_Price r = v) ∧
    (∀ v, lookup_key "total_amount" i = Some v → Total_Amount r = v) ∧
    (∀ v, lookup_key "discount_amount" i = Some v → Discount_Amount r = v) ∧
    (∀ v, lookup_key "vat" i = Some v → VAT r = v) ∧
    (∀ v, lookup_key "amount_incl_vat" i = Some v → Amount_Incl_VAT r = v) ∧
    (∀ v, lookup_key "batch_no" i = Some v → Batch_No r = v) ∧
    (∀ v, lookup_key "expiry_date" i = Some v → Expiry_Date r = v).
Proof.
  intros Hitems Hn. exists (header_row d <$> items), (header_row d i).
  split; [by apply flatten_dict_items|].
  split; [by rewrite list_lookup_fmap, Hn|].
  repeat split; intros v Hk; cbn; by apply get_present.
Qed.

Lemma flatten_keeps_present_values_witness :
  lookup_key "line_items" [("line_items", VList (VDict <$> [[("quantity", VNone)]]))]
  = Some (VList (VDict <$> [[("quantity", VNone)]])) ∧
  [[("quantity", VNone)]] !! 0%nat = Some [("quantity", VNone)] ∧
  ∃ (rows : list row) (r : row),
    flatten_to_rows (VDict [("line_items", VList (VDict <$> [[("quantity", VNone)]]))])
    = Ok rows ∧ rows !! 0%nat = Some r ∧ Quantity r = VNone.
Proof.
  split; [reflexivity|]. split; [reflexivity|].
  destruct (flatten_keeps_present_values
              [("line_items", VList (VDict <$> [[("quantity", VNone)]]))]
              [[("quantity", VNone)]] 0 [("quantity", VNone)] eq_refl eq_refl)
    as (rows & r & Hrows & Hr & _ & _ & _ & Hq & _).
  exists rows, r. split; [exact Hrows|]. split; [exact Hr|].
  apply Hq. reflexivity.
Defined.

(** X4. The flattener reads six keys of the record and nothing else: two
    records that agree on the five header keys and on [line_items] flatten
    alike, whatever other keys they carry and in whatever order. *)
Theorem flatten_reads_six_keys (d d' : dict) :
  Forall (λ k, lookup_key k d = lookup_key k d')
    ["invoice_number"; "waybill_number"; "customer_name"; "order_number";
     "invoice_date"; "line_items"] →
  flatten_to_rows (VDict d) = flatten_to_rows (VDict d').
Proof.
  intros Hkeys.
  apply Forall_cons in Hkeys as [H1 Hkeys]. apply Forall_cons in Hkeys as [H2 Hkeys].
  apply Forall_cons in Hkeys as [H3 Hkeys]. apply Forall_cons in Hkeys as [H4 Hkeys].
  apply Forall_cons in Hkeys as [H5 Hkeys]. apply Forall_cons in Hkeys as [H6 _].
  destruct d as [|kv d], d' as [|kv' d'].
  - reflexivity.
  - rewrite (flatten_no_items (kv' :: d')); [reflexivity|]. left. by rewrite <- H6.
  - rewrite (flatten_no_items (kv :: d)); [reflexivity|]. left. by rewrite H6.
  - unfold flatten_to_rows. cbn [truthy negb]. unfold get.
    by rewrite H1, H2, H3, H4, H5, H6.
Qed.

Lemma flatten_reads_six_keys_witness :
  Forall (λ k, lookup_key k [("model", VStr "m"); ("invoice_number", VStr "INV1")]
               = lookup_key k [("invoice_number", VStr "INV1"); ("pages", VInt 2)])
    ["invoice_number"; "waybill_number"; "customer_name"; "order_number";
     "invoice_date"; "line_items"] ∧
  flatten_to_rows (VDict [("model", VStr "m"); ("invoice_number", VStr "INV1")])
  = flatten_to_rows (VDict [("invoice_number", VStr "INV1"); ("pages", VInt 2)]).
Proof.
  assert (Forall (λ k, lookup_key k [("model", VStr "m"); ("invoice_number", VStr "INV1")]
                       = lookup_key k [("invoice_number", VStr "INV1"); ("pages", VInt 2)])
            ["invoice_number"; "waybill_number"; "customer_name"; "order_number";
             "invoice_date"; "line_items"]) as Hkeys
    by (repeat constructor).
  split; [exact Hkeys|].
  exact (flatten_reads_six_keys _ _ Hkeys).
Defined.

(** ** The batch and the stored dataset *)

(** A value that can be iterated is true exactly when it has an element. *)
Lemma iterable_truthy (v : value) (paths : list value) :
  py_iter v = Ok paths → truthy v = true ↔ paths ≠ [].
Proof.
  destruct v as [| | | |s|l|d]; try discriminate; intros [= <-].
  - by destruct s.
  - by destruct l.
  - by destruct d.
Qed.

Section BatchInvariants.

Context (generate_text : value → result string)
        (json_loads : string → result value)
        (float_of_str : string → result spec_float)
        (float_reduce : list spec_float → spec_float)
        (new_extractor : result unit).

Local Abbreviation extract := (extract_invoice_data generate_text json_loads).
Local Abbreviation body := (loop_body generate_text json_loads).
Local Abbreviation run := (process_batch generate_text json_loads).
Local Abbreviation handle := (process_files generate_text json_loads float_of_str float_reduce new_extractor).

(** X5. A batch is the sum of its parts: processing the files of two lists in
    one request accumulates the rows, the count and the output of the two
    lists processed one after the other. *)
Theorem batch_of_concatenation (l k : list value) :
  all_rows (run (l ++ k)) = all_rows (run l) ++ all_rows (run k) ∧
  processed (run (l ++ k)) = processed (run l) + processed (run k) ∧
  output (run (l ++ k)) = output (run l) ++ output (run k).
Proof. by rewrite process_batch_app. Qed.

(** One file is counted, or prints one line, or neither; never both. *)
Lemma loop_body_budget (f : value) :
  0 ≤ processed (body empty_batch f) ∧
  processed (body empty_batch f) + Z.of_nat (length (output (body empty_batch f))) ≤ 1.
Proof.
  unfold loop_body, extract_invoice_data.
  destruct (generate_text f ≫= _) as [data|e]; cbn [empty_batch output processed all_rows].
  - destruct (truthy data); [destruct (flatten_to_rows data)|]; cbn; lia.
  - cbn. lia.
Qed.

(** X6. The count is never negative, and a file that is counted prints
    nothing: the count and the number of printed lines together never
    exceed the number of files. *)
Theorem batch_count_and_output_bounded (paths : list value) :
  0 ≤ processed (run paths) ∧
  processed (run paths) + Z.of_nat (length (output (run paths)))
  ≤ Z.of_nat (length paths).
Proof.
  induction paths as [|f paths [IHpos IHle]]; [split; reflexivity|].
  rewrite process_batch_cons. cbn [batch_app processed output].
  rewrite length_app. cbn [length].
  destruct (loop_body_budget f) as [Hpos Hle]. lia.
Qed.

(** X7. The stored rows are never merged or partly updated: a request either
    leaves them (and prints nothing, and does not succeed), or replaces them
    by the rows of its batch.  The replacement does not wait for the
    statistics: when the list of paths is not empty, the extractor is
    constructed and the statistics of the batch raise, the request ends in
    that error and the stored rows are the rows of the batch all the same. *)
Theorem dataset_replaced_or_kept (request_json : value) (stored_rows : list row) :
  (∀ (stored_rows' : list row) (resp : response) (out : list log_line),
     handle request_json stored_rows = (resp, stored_rows', out) →
     (stored_rows' = stored_rows ∧ out = [] ∧ ∀ b, resp ≠ Json b 200) ∨
     (∃ (data : dict) (paths : list value),
        request_json = VDict data ∧
        py_iter (get data "file_paths" (VList [])) = Ok paths ∧ paths ≠ [] ∧
        new_extractor = Ok tt ∧
        stored_rows' = all_rows (run paths) ∧ out = output (run paths) ∧
        ((∃ b, resp = Json b 200) ∨
         (∃ e, resp = Unhandled e ∧
               compute_stats float_of_str float_reduce (all_rows (run paths)) = Raise e)))) ∧
  (∀ (data : dict) (paths : list value) (e : exn),
     request_json = VDict data →
     py_iter (get data "file_paths" (VList [])) = Ok paths →
     paths ≠ [] →
     new_extractor = Ok tt →
     compute_stats float_of_str float_reduce (all_rows (run paths)) = Raise e →
     handle request_json stored_rows
     = (Unhandled e, all_rows (run paths), output (run paths))).
Proof.
  split.
  - unfold process_files. intros stored_rows' resp out Hrun.
    destruct request_json as [| | | | | |data];
      try (left; injection Hrun as <- <- <-; by repeat split).
    destruct (truthy (get data "file_paths" (VList []))) eqn:Htrue; cbn [negb] in Hrun;
      [|left; injection Hrun as <- <- <-; by repeat split].
    destruct new_extractor as [[]|e] eqn:Hnew;
      [|left; injection Hrun as <- <- <-; by repeat split].
    destruct (py_iter (get data "file_paths" (VList []))) as [paths|e] eqn:Hiter;
      [|left; injection Hrun as <- <- <-; by repeat split].
    right. exists data, paths. split; [reflexivity|]. split; [exact Hiter|].
    split; [by apply (iterable_truthy _ _ Hiter)|]. split; [reflexivity|].
    destruct (compute_stats float_of_str float_reduce (all_rows (run paths)))
      as [s|e] eqn:Hstats;
      injection Hrun as <- <- <-; repeat split; eauto.
  - intros data paths e -> Hiter Hne Hnew Hstats. unfold process_files.
    rewrite (proj2 (iterable_truthy _ _ Hiter) Hne). cbn [negb].
    by rewrite Hnew, Hiter, Hstats.
Qed.

(** X8. When the extractor is constructed and every file of a batch fails
    to extract, the request still succeeds: nothing is counted, the
    statistics are all zero, and the rows stored before are discarded. *)
Theorem failed_batch_empties_dataset (paths : list value) (stored_rows : list row) :
  paths ≠ [] →
  new_extractor = Ok tt →
  Forall (λ f, ∃ e, generate_text f = Raise e ∨
                    ∃ text, generate_text f = Ok text ∧
                            json_loads (clean_response text) = Raise e) paths →
  ∃ out : list log_line,
    length out = length paths ∧
    handle (VDict [("file_paths", VList paths)]) stored_rows
    = (Json (VDict [("success", VBool true); ("processed", VInt 0);
                    ("total_rows", VInt 0);
                    ("stats",
                     VDict [("total_documents", VInt 0); ("total_line_items", VInt 0);
                            ("total_quantity", VInt 0); ("total_value", VInt 0)])]) 200,
       [], out).
Proof.
  intros Hne Hnew Hfail.
  assert (∃ out, length out = length paths ∧
                 run paths = {| all_rows := []; processed := 0; output := out |})
    as (out & Hlen & Hrun).
  { clear Hne. induction Hfail as [|f paths (e & Hf) _ (out & Hlen & IH)].
    - by exists [].
    - exists (PrintError e :: out). split; [cbn; by rewrite Hlen|].
      rewrite process_batch_cons, (loop_body_failed _ _ f e Hf), IH. reflexivity. }
  exists out. split; [exact Hlen|]. unfold process_files.
  change (get [("file_paths", VList paths)] "file_paths" (VList [])) with (VList paths).
  destruct paths as [|p paths]; [done|]. cbn [truthy negb py_iter].
  by rewrite Hnew, Hrun.
Qed.

(** X9. What [/data] serves after a successful [/process] is the batch of that
    request: its count is the [total_rows] of the response, and its records
    are the stored rows in order. *)
Theorem data_serves_last_batch
    (request_json : value) (stored_rows stored_rows' : list row)
    (b : value) (out : list log_line) :
  handle request_json stored_rows = (Json b 200, stored_rows', out) →
  ∃ d : dict,
    b = VDict d ∧
    get d "total_rows" VNone = VInt (Z.of_nat (length stored_rows')) ∧
    get_data stored_rows'
    = Json (VDict [("data", VList (row_to_dict <$> stored_rows'));
                   ("count", get d "total_rows" VNone)]) 200.
Proof.
  unfold process_files. intros Hrun.
  destruct request_json as [| | | | | |data]; try discriminate.
  destruct (truthy (get data "file_paths" (VList []))); cbn [negb] in Hrun;
    [|discriminate].
  destruct new_extractor as [u|e]; [|discriminate].
  destruct (py_iter (get data "file_paths" (VList []))) as [paths|e]; [|discriminate].
  destruct (compute_stats float_of_str float_reduce (all_rows (run paths))) as [s|e];
    [|discriminate].
  injection Hrun as <- <- <-. eexists. split; [reflexivity|].
  split; reflexivity.
Qed.

End BatchInvariants.

Lemma dataset_replaced_or_kept_witness :
  py_iter (get [("file_paths", VList [VStr "a.png"])] "file_paths" (VList []))
  = Ok [VStr "a.png"] ∧
  [VStr "a.png"] ≠ [] ∧
  Sample.extractor_ready = Ok tt ∧
  compute_stats Sample.no_float Sample.first_to_last
    (all_rows (process_batch Sample2.text_quantity Sample2.decode_text [VStr "a.png"]))
  = Raise ValueError ∧
  process_files Sample2.text_quantity Sample2.decode_text Sample.no_float
    Sample.first_to_last Sample.extractor_ready
    (VDict [("file_paths", VList [VStr "a.png"])]) [header_row Sample.invoice_one []]
  = (Unhandled ValueError,
     [header_row [("invoice_number", VStr "INV1")] [("quantity", VStr "abc")]], []).
Proof.
  assert ([VStr "a.png"] ≠ []) as Hne by discriminate.
  assert (compute_stats Sample.no_float Sample.first_to_last
            (all_rows (process_batch Sample2.text_quantity Sample2.decode_text
                         [VStr "a.png"]))
          = Raise ValueError) as Hstats by reflexivity.
  split; [reflexivity|]. split; [exact Hne|]. split; [reflexivity|].
  split; [exact Hstats|].
  exact (proj2 (dataset_replaced_or_kept Sample2.text_quantity Sample2.decode_text
                  Sample.no_float Sample.first_to_last Sample.extractor_ready
                  (VDict [("file_paths", VList [VStr "a.png"])])
                  [header_row Sample.invoice_one []])
           [("file_paths", VList [VStr "a.png"])] [VStr "a.png"] ValueError
           eq_refl eq_refl Hne eq_refl Hstats).
Defined.

Lemma failed_batch_empties_dataset_witness :
  [VStr "uploads/2.png"; VStr "uploads/4.png"] ≠ [] ∧
  Sample.extractor_ready = Ok tt ∧
  Forall (λ f, ∃ e, Sample.three_files f = Raise e ∨
                    ∃ text, Sample.three_files f = Ok text ∧
                            Sample.decode (clean_response text) = Raise e)
    [VStr "uploads/2.png"; VStr "uploads/4.png"] ∧
  ∃ out : list log_line,
    length out = 2%nat ∧
    (process_files Sample.three_files Sample.decode Sample.no_float
    Sample.first_to_last Sample.extractor_ready
       (VDict [("file_paths", VList [VStr "uploads/2.png"; VStr "uploads/4.png"])])
       [header_row Sample.invoice_one []]).1.2 = [].
Proof.
  assert (Forall (λ f, ∃ e, Sample.three_files f = Raise e ∨
                    ∃ text, Sample.three_files f = Ok text ∧
                            Sample.decode (clean_response text) = Raise e)
            [VStr "uploads/2.png"; VStr "uploads/4.png"]) as Hfail.
  { repeat constructor; exists (ServiceError "unavailable"); left; reflexivity. }
  split; [discriminate|]. split; [reflexivity|]. split; [exact Hfail|].
  destruct (failed_batch_empties_dataset Sample.three_files Sample.decode Sample.no_float
              Sample.first_to_last Sample.extractor_ready
              [VStr "uploads/2.png"; VStr "uploads/4.png"]
              [header_row Sample.invoice_one []] ltac:(discriminate) eq_refl Hfail)
    as (out & Hlen & Hrun).
  exists out. split; [exact Hlen|]. by rewrite Hrun.
Defined.

Lemma data_serves_last_batch_witness :
  process_files Sample.three_files Sample.decode Sample.no_float
    Sample.first_to_last Sample.extractor_ready
    (VDict [("file_paths", VList [VStr "uploads/3.png"])]) []
  = (Json (VDict [("success", VBool true); ("processed", VInt 1);
                  ("total_rows", VInt 1);
                  ("stats",
                   VDict [("total_documents", VInt 1); ("total_line_items", VInt 1);
                          ("total_quantity", VInt 4); ("total_value", VFloat (S754_zero false))])])
       200,
     [header_row [("invoice_number", VStr "INV3")] [("quantity", VInt 4)]], []) ∧
  ∃ d : dict,
    get d "total_rows" VNone = VInt 1 ∧
    get_data [header_row [("invoice_number", VStr "INV3")] [("quantity", VInt 4)]]
    = Json (VDict [("data",
                    VList (row_to_dict
                             <$> [header_row [("invoice_number", VStr "INV3")]
                                    [("quantity", VInt 4)]]));
                   ("count", get d "total_rows" VNone)]) 200.
Proof.
  assert (process_files Sample.three_files Sample.decode Sample.no_float
    Sample.first_to_last Sample.extractor_ready
            (VDict [("file_paths", VList [VStr "uploads/3.png"])]) []
          = (Json (VDict [("success", VBool true); ("processed", VInt 1);
                          ("total_rows", VInt 1);
                          ("stats",
                           VDict [("total_documents", VInt 1); ("total_line_items", VInt 1);
                                  ("total_quantity", VInt 4);
                                  ("total_value", VFloat (S754_zero false))])])
               200,
             [header_row [("invoice_number", VStr "INV3")] [("quantity", VInt 4)]], []))
    as Hrun by (vm_compute; reflexivity).
  split; [exact Hrun|].
  destruct (data_serves_last_batch _ _ _ _ _ _ _ _ _ _ Hrun) as (d & _ & Hd & Hdata).
  exists d. split; [exact Hd | exact Hdata].
Defined.

(** ** The clean-up of the answer, and file names *)

Section Strings.

Lemma append_nil_r (s : string) : s +:+ "" = s.
Proof. induction s as [|c s IH]; [reflexivity|]. by rewrite append_cons, IH. Qed.

Lemma append_assoc (a b c : string) : (a +:+ b) +:+ c = a +:+ (b +:+ c).
Proof. induction a as [|x a IH]; [reflexivity|]. by rewrite !append_cons, IH. Qed.

Lemma rev_app_snoc (s : string) (c : ascii) (acc : string) :
  String.rev_app (s +:+ String c "") acc = String c (String.rev_app s acc).
Proof.
  revert acc. induction s as [|x s IH]; intros acc; [reflexivity|].
  rewrite append_cons. cbn [String.rev_app]. by rewrite IH.
Qed.

Lemma rev_app_rev_app (s a b : string) :
  String.rev_app (String.rev_app s a) b = String.rev_app a (s +:+ b).
Proof.
  revert a b. induction s as [|x s IH]; intros a b; [reflexivity|].
  cbn [String.rev_app]. by rewrite IH.
Qed.

(** A last character that is not white space stops [rstrip]; one that is
    white space is dropped. *)
Lemma rstrip_snoc (s : string) (c : ascii) :
  Str.rstrip (s +:+ String c "")
  = if Str.is_space c then Str.rstrip s else s +:+ String c "".
Proof.
  unfold Str.rstrip, String.rev. rewrite rev_app_snoc. cbn [Str.lstrip].
  destruct (Str.is_space c); [reflexivity|].
  cbn [String.rev_app]. by rewrite rev_app_rev_app.
Qed.

Lemma no_backquote_app (a b : string) :
  no_backquote (a +:+ b) = no_backquote a && no_backquote b.
Proof.
  induction a as [|x a IH]; [reflexivity|].
  rewrite append_cons. cbn [no_backquote]. by rewrite IH, andb_assoc.
Qed.

(** Text without a backquote holds no occurrence of a fence and is copied
    by the replacement. *)
Lemma replace_go_no_backquote (old' new s tail : string) :
  no_backquote s = true →
  Str.replace_go (String "`" old') new 0 (s +:+ tail)
  = s +:+ Str.replace_go (String "`" old') new 0 tail.
Proof.
  induction s as [|c s IH]; [reflexivity|].
  cbn [no_backquote]. intros [Hc Hs]%andb_true_iff.
  rewrite !append_cons. cbn [Str.replace_go String.prefix].
  destruct (ascii_dec "`" c) as [<-|_]; [discriminate|].
  by rewrite (IH Hs).
Qed.

Lemma prefix_append (old rest : string) : String.prefix old (old +:+ rest) = true.
Proof.
  induction old as [|c old IH]; [by destruct rest|].
  rewrite append_cons. cbn [String.prefix].
  by destruct (ascii_dec c c).
Qed.

Lemma replace_go_skip (old new pre rest : string) :
  Str.replace_go old new (String.length pre) (pre +:+ rest)
  = match rest with "" => "" | _ => Str.replace_go old new 0 rest end.
Proof.
  induction pre as [|c pre IH]; [by destruct rest|].
  rewrite append_cons. cbn [String.length Str.replace_go]. exact IH.
Qed.

(** An occurrence at the head is replaced, and the replacement goes on
    after it. *)
Lemma replace_go_match (c : ascii) (old' new rest : string) :
  Str.replace_go (String c old') new 0 (String c old' +:+ rest)
  = new +:+ Str.replace_go (String c old') new 0 rest.
Proof.
  rewrite append_cons at 1. cbn [Str.replace_go].
  rewrite <- append_cons, prefix_append.
  replace (String.length (String c old') - 1)%nat with (String.length old')
    by (cbn [String.length]; lia).
  rewrite replace_go_skip. by destruct rest.
Qed.

Lemma strip_object (inner : string) :
  Str.strip ("{" +:+ inner +:+ "}") = "{" +:+ inner +:+ "}".
Proof.
  unfold Str.strip. change ("{" +:+ inner +:+ "}") with (String "{" (inner +:+ "}")).
  cbn [Str.lstrip]. change (Str.is_space "{") with false. cbv iota.
  change (String "{" (inner +:+ "}")) with (String "{" inner +:+ String "}" "").
  by rewrite rstrip_snoc.
Qed.

Lemma replace_no_backquote (old' new s : string) :
  no_backquote s = true → Str.replace (String "`" old') new s = s.
Proof.
  intros Hs. unfold Str.replace. rewrite <- (append_nil_r s) at 1.
  rewrite (replace_go_no_backquote _ _ _ "" Hs). cbn [Str.replace_go].
  apply append_nil_r.
Qed.

Lemma clean_bare (inner : string) :
  no_backquote inner = true →
  clean_response ("{" +:+ inner +:+ "}") = "{" +:+ inner +:+ "}".
Proof.
  intros Hinner. unfold clean_response.
  assert (no_backquote ("{" +:+ inner +:+ "}") = true) as Hall
    by by rewrite !no_backquote_app, Hinner.
  rewrite strip_object.
  rewrite (replace_no_backquote "``json" "" _ Hall).
  rewrite (replace_no_backquote "``" "" _ Hall).
  apply strip_object.
Qed.

Lemma clean_fenced (inner : string) :
  no_backquote inner = true →
  clean_response ("```json" +:+ newline +:+ "{" +:+ inner +:+ "}" +:+ newline +:+ "```")
  = "{" +:+ inner +:+ "}".
Proof.
  intros Hinner. unfold clean_response.
  set (B := "{" +:+ inner +:+ "}").
  set (M := newline +:+ B +:+ newline).
  assert (no_backquote M = true) as HM.
  { unfold M, B. by rewrite !no_backquote_app, Hinner. }
  assert ("```json" +:+ newline +:+ "{" +:+ inner +:+ "}" +:+ newline +:+ "```"
          = "```json" +:+ M +:+ "```") as ->.
  { unfold M, B. by rewrite !append_assoc. }
  assert (Str.strip ("```json" +:+ M +:+ "```") = "```json" +:+ M +:+ "```") as ->.
  { unfold Str.strip.
    change ("```json" +:+ M +:+ "```") with (String "`" ("``json" +:+ M +:+ "```")).
    cbn [Str.lstrip]. change (Str.is_space "`") with false. cbv iota.
    replace (String "`" ("``json" +:+ M +:+ "```"))
      with (("```json" +:+ M +:+ "``") +:+ String "`" "")
      by (rewrite !append_assoc; reflexivity).
    by rewrite rstrip_snoc. }
  assert (Str.replace "```json" "" ("```json" +:+ M +:+ "```") = M +:+ "```") as ->.
  { unfold Str.replace. rewrite replace_go_match.
    by rewrite (replace_go_no_backquote _ _ _ _ HM). }
  assert (Str.replace "```" "" (M +:+ "```") = M) as ->.
  { unfold Str.replace. rewrite (replace_go_no_backquote _ _ _ _ HM).
    change (Str.replace_go "```" "" 0 "```") with "". apply append_nil_r. }
  unfold M, Str.strip. change (newline +:+ B +:+ newline) with (String "010" (B +:+ newline)).
  cbn [Str.lstrip]. change (Str.is_space "010") with true. cbv iota.
  unfold B at 1. change (("{" +:+ inner +:+ "}") +:+ newline) with (String "{" ((inner +:+ "}") +:+ newline)).
  cbn [Str.lstrip]. change (Str.is_space "{") with false. cbv iota.
  change (String "{" ((inner +:+ "}") +:+ newline)) with (B +:+ String "010" "").
  rewrite rstrip_snoc. change (Str.is_space "010") with true. cbv iota.
  unfold B. change ("{" +:+ inner +:+ "}") with (String "{" inner +:+ String "}" "").
  by rewrite rstrip_snoc.
Qed.

(** X10. An answer wrapped in a code fence is extracted like the bare answer:
    for a JSON object without backquotes, a fence opened with three
    backquotes and [json] and closed with three backquotes, each on its own
    line, is removed before decoding. *)
Theorem fenced_answer_is_unwrapped
    (generate_fenced generate_bare : value → result string)
    (json_loads : string → result value) (image_path : value) (inner : string) :
  no_backquote inner = true →
  generate_fenced image_path
  = Ok ("```json" +:+ newline +:+ "{" +:+ inner +:+ "}" +:+ newline +:+ "```") →
  generate_bare image_path = Ok ("{" +:+ inner +:+ "}") →
  clean_response ("```json" +:+ newline +:+ "{" +:+ inner +:+ "}" +:+ newline +:+ "```")
  = "{" +:+ inner +:+ "}" ∧
  extract_invoice_data generate_fenced json_loads image_path
  = extract_invoice_data generate_bare json_loads image_path.
Proof.
  intros Hinner Hfenced Hbare. split; [by apply clean_fenced|].
  unfold extract_invoice_data. rewrite Hfenced, Hbare. cbn [mbind result_bind].
  by rewrite clean_fenced, clean_bare.
Qed.

Lemma lower_ascii_idem (c : ascii) :
  Str.lower_ascii (Str.lower_ascii c) = Str.lower_ascii c.
Proof. by destruct c as [[] [] [] [] [] [] [] []]. Qed.

Lemma lower_ascii_dot (c : ascii) :
  Ascii.eqb (Str.lower_ascii c) "." = Ascii.eqb c ".".
Proof. by destruct c as [[] [] [] [] [] [] [] []]. Qed.

Lemma lower_idem (s : string) : Str.lower (Str.lower s) = Str.lower s.
Proof.
  induction s as [|c s IH]; [reflexivity|].
  cbn [Str.lower]. by rewrite lower_ascii_idem, IH.
Qed.

Lemma has_dot_lower (s : string) : Str.has_dot (Str.lower s) = Str.has_dot s.
Proof.
  induction s as [|c s IH]; [reflexivity|].
  cbn [Str.lower Str.has_dot]. by rewrite lower_ascii_dot, IH.
Qed.

(** X11. [allowed_file] looks at the text after the last dot only, and without
    regard to case: a name without a dot is refused, and a name with a dot
    is accepted exactly when that text, in lower case, is an allowed
    extension, whatever stands before the dot (nothing, as in [.png],
    included). *)
Theorem allowed_file_by_extension :
  (∀ name, Str.has_dot name = false → allowed_file name = false) ∧
  (∀ stem ext,
     Str.has_dot ext = false →
     allowed_file (stem +:+ "." +:+ ext)
     = bool_decide (Str.lower ext ∈ ALLOWED_EXTENSIONS)) ∧
  (∀ stem stem' ext,
     Str.has_dot ext = false →
     allowed_file (stem +:+ "." +:+ ext) = allowed_file (stem' +:+ "." +:+ Str.lower ext)).
Proof.
  assert (∀ stem ext, Str.has_dot ext = false →
            allowed_file (stem +:+ "." +:+ ext)
            = bool_decide (Str.lower ext ∈ ALLOWED_EXTENSIONS)) as Hext.
  { intros stem ext Hno. unfold allowed_file.
    by rewrite has_dot_append, (rsplit_dot_append stem ext Hno). }
  split; [|split].
  - intros name Hno. unfold allowed_file. by rewrite Hno.
  - exact Hext.
  - intros stem stem' ext Hno.
    rewrite (Hext stem ext Hno), (Hext stem' (Str.lower ext)), lower_idem; [reflexivity|].
    by rewrite has_dot_lower.
Qed.

Lemma allowed_file_by_extension_witness :
  Str.has_dot "PnG" = false ∧
  allowed_file ("" +:+ "." +:+ "PnG") = allowed_file ("scan.2024" +:+ "." +:+ Str.lower "PnG").
Proof.
  split; [reflexivity|].
  apply (proj2 (proj2 allowed_file_by_extension) "" "scan.2024" "PnG"). reflexivity.
Defined.

End Strings.

Lemma fenced_answer_is_unwrapped_witness :
  no_backquote "x: 1" = true ∧
  extract_invoice_data
    (λ _, Ok ("```json" +:+ newline +:+ "{" +:+ "x: 1" +:+ "}" +:+ newline +:+ "```"))
    Sample.decode (VStr "uploads/1.png")
  = extract_invoice_data (λ _, Ok ("{" +:+ "x: 1" +:+ "}"))
      Sample.decode (VStr "uploads/1.png").
Proof.
  split; [reflexivity|].
  apply (proj2 (fenced_answer_is_unwrapped
                  (λ _, Ok ("```json" +:+ newline +:+ "{" +:+ "x: 1" +:+ "}"
                            +:+ newline +:+ "```"))
                  (λ _, Ok ("{" +:+ "x: 1" +:+ "}"))
                  Sample.decode (VStr "uploads/1.png") "x: 1"
                  eq_refl eq_refl eq_refl)).
Defined.

(** ** Upload: what is stored *)

Section UploadInvariants.

Context (secure_filename : string → string) (uuid4 : nat → string).

Local Abbreviation store := (upload_one secure_filename uuid4).

(** The loop only adds files and draws identifiers. *)
Lemma upload_loop_grows (l : list file_storage) (dk : disk) (acc : list uploaded) :
  (∀ p, is_Some (stored dk !! p) → is_Some (stored (foldl store (dk, acc) l).1 !! p)) ∧
  (drawn dk ≤ drawn (foldl store (dk, acc) l).1)%nat.
Proof.
  revert dk acc. induction l as [|f l IH]; intros dk acc; [done|].
  cbn [foldl]. unfold upload_one at 2 4.
  destruct (_ && _); [|apply IH].
  match goal with |- context [foldl _ (?d, ?a) l] => destruct (IH d a) as [Hkeep Hdrawn] end.
  cbn [stored drawn] in Hkeep, Hdrawn. split; [|lia].
  intros p Hp. apply Hkeep. rewrite lookup_insert.
  case_decide; [by eexists | exact Hp].
Qed.

(** X12. An upload never deletes a stored file and never takes back an
    identifier; a request that is refused (too long, or without the file
    field) changes nothing on disk, and it is refused with 413 or 400. *)
Theorem upload_only_adds (req : upload_request) (dk dk' : disk) (resp : response) :
  upload_files secure_filename uuid4 req dk = (resp, dk') →
  (∀ p, is_Some (stored dk !! p) → is_Some (stored dk' !! p)) ∧
  (drawn dk ≤ drawn dk')%nat ∧
  ((∀ b, resp ≠ Json b 200) →
   dk' = dk ∧
   (resp = Abort 413 ∨ resp = Json (VDict [("error", VStr "No files provided")]) 400)).
Proof.
  unfold upload_files. intros Hup.
  destruct (MAX_CONTENT_LENGTH <? content_length req);
    [injection Hup as <- <-; repeat split; auto|].
  destruct (existsb _ (files req)); cbn [negb] in Hup;
    [|injection Hup as <- <-; repeat split; auto].
  destruct (upload_loop_grows (getlist "files[]" (files req)) dk []) as [Hkeep Hdrawn].
  destruct (foldl store (dk, []) _) as [dk1 ups]. injection Hup as <- <-.
  split; [exact Hkeep|]. split; [exact Hdrawn|].
  intros Hno. by destruct (Hno _ eq_refl).
Qed.

Lemma append_same_length (a b x y : string) :
  String.length a = String.length b → a +:+ x = b +:+ y → a = b.
Proof.
  revert b. induction a as [|c a IH]; intros [|c' b]; try discriminate; [reflexivity|].
  cbn [String.length]. intros [= Hlen]. rewrite !append_cons. intros [= -> Htail].
  f_equal. by apply IH.
Qed.

(** Two identifiers of one length that differ give different paths,
    whatever the file names. *)
Lemma stored_path_identifier (i j : nat) (name name' : string) :
  String.length (uuid4 i) = String.length (uuid4 j) →
  stored_path uuid4 i name = stored_path uuid4 j name' →
  uuid4 i = uuid4 j.
Proof.
  unfold stored_path. intros Hlen Hpath.
  apply String.app_inj, String.app_inj in Hpath.
  by apply (append_same_length _ _ _ _ Hlen Hpath).
Qed.

Lemma upload_loop_fresh (l : list file_storage) (dk : disk) (acc : list uploaded) :
  fresh_identifiers uuid4 (drawn dk) (length l) →
  ∃ (dk' : disk) (new : list uploaded),
    foldl store (dk, acc) l = (dk', acc ++ new) ∧
    (drawn dk ≤ drawn dk' ≤ drawn dk + length l)%nat ∧
    Forall (λ u, ∃ i name, (drawn dk ≤ i < drawn dk')%nat ∧
                           path u = stored_path uuid4 i name) new ∧
    NoDup (path <$> new) ∧
    (∀ p, p ∉ path <$> new → stored dk' !! p = stored dk !! p) ∧
    Forall (λ u, stored dk' !! path u = Some (stored_size u)) new.
Proof.
  revert dk acc. induction l as [|f l IH]; intros dk acc Hfresh.
  - exists dk, []. rewrite app_nil_r. cbn. repeat split; try constructor; lia.
  - cbn [foldl]. unfold upload_one at 2.
    destruct (_ && _).
    + set (name := secure_filename (filename f)).
      set (fp := UPLOAD_FOLDER +:+ "/" +:+ uuid4 (drawn dk) +:+ "_" +:+ name).
      set (dk1 := {| stored := <[fp:=content_size f]> (stored dk); drawn := S (drawn dk) |}).
      destruct (IH dk1 (acc ++ [ {| original_name := name;
                                    stored_name := uuid4 (drawn dk) +:+ "_" +:+ name;
                                    path := fp;
                                    stored_size := <[fp:=content_size f]> (stored dk) !!! fp |} ]))
        as (dk' & new & Hrun & Hdrawn & Hidx & Hnodup & Hother & Hsizes).
      { intros n m Hn Hm. cbn [drawn dk1] in Hn, Hm.
        apply Hfresh; cbn [length]; lia. }
      cbn [drawn dk1] in Hdrawn.
      assert (fp ∉ path <$> new) as Hfp.
      { intros (u & Hu & Hin)%list_elem_of_fmap.
        rewrite Forall_forall in Hidx. destruct (Hidx u Hin) as (i & name' & Hi & Hpath).
        cbn [drawn dk1] in Hi.
        destruct (Hfresh (drawn dk) i) as [Hlen Hinj]; [cbn [length]; lia..|].
        assert (drawn dk = i) as Heq; [|lia].
        apply Hinj, (stored_path_identifier _ _ name name' Hlen).
        by rewrite <- Hpath, <- Hu. }
      eexists dk', (_ :: new). rewrite <- app_assoc in Hrun. split; [exact Hrun|].
      split; [cbn [length]; lia|]. split; [|split; [|split]].
      * constructor.
        -- exists (drawn dk), name. split; [lia | reflexivity].
        -- eapply Forall_impl; [exact Hidx|]. cbn [drawn dk1].
           intros u (i & name' & Hi & Hpath). exists i, name'. split; [lia | exact Hpath].
      * cbn [fmap list_fmap path]. by constructor.
      * intros p Hp. cbn [fmap list_fmap path] in Hp.
        apply not_elem_of_cons in Hp as [Hne Hp].
        rewrite (Hother p Hp). cbn [stored dk1]. by rewrite lookup_insert_ne.
      * constructor.
        -- cbn [path stored_size]. rewrite (Hother fp Hfp). cbn [stored dk1].
           by rewrite lookup_insert_eq, lookup_total_insert_eq.
        -- exact Hsizes.
    + destruct (IH dk acc) as (dk' & new & Hrun & Hdrawn & Hidx & Hrest).
      { intros n m Hn Hm. apply Hfresh; cbn [length]; lia. }
      exists dk', new. split; [exact Hrun|]. split; [cbn [length]; lia|].
      split; [exact Hidx | exact Hrest].
Qed.

(** X13. With identifiers of one length that do not repeat within the request,
    no stored file overwrites another: the returned paths are pairwise
    different, also for parts with the same name; each is on disk with the
    size the response reports; and every other path on disk is as before. *)
Theorem upload_paths_fresh (req : upload_request) (dk : disk) :
  content_length req ≤ MAX_CONTENT_LENGTH →
  existsb (λ p, String.eqb p.1 "files[]") (files req) = true →
  (∀ n m : nat,
     (drawn dk ≤ n < drawn dk + length (getlist "files[]" (files req)))%nat →
     (drawn dk ≤ m < drawn dk + length (getlist "files[]" (files req)))%nat →
     String.length (uuid4 n) = String.length (uuid4 m) ∧ (uuid4 n = uuid4 m → n = m)) →
  ∃ (ups : list uploaded) (dk' : disk),
    upload_files secure_filename uuid4 req dk
    = (Json (VDict [("success", VBool true);
                    ("files", VList (uploaded_to_dict <$> ups));
                    ("count", VInt (Z.of_nat (length ups)))]) 200, dk') ∧
    NoDup (path <$> ups) ∧
    Forall (λ u, stored dk' !! path u = Some (stored_size u)) ups ∧
    ∀ p, p ∉ path <$> ups → stored dk' !! p = stored dk !! p.
Proof.
  intros Hsmall Hfield Hfresh. unfold upload_files.
  rewrite (proj2 (Z.ltb_ge _ _) Hsmall), Hfield. cbn [negb].
  destruct (upload_loop_fresh (getlist "files[]" (files req)) dk [] Hfresh)
    as (dk' & ups & -> & _ & _ & Hnodup & Hother & Hsizes).
  exists ups, dk'. cbn [app]. by repeat split.
Qed.

End UploadInvariants.

(** ** Export and clear *)

Lemma column_values_length (col : list value) :
  length (Pandas.column_values col) = length col.
Proof.
  unfold Pandas.column_values. destruct (Pandas.infer_dtype col); try reflexivity.
  apply length_fmap.
Qed.

(** X14. [/export] is refused exactly when no row is stored.  Otherwise, when
    the writer accepts the frame, the file sent is named after the time of
    the request and holds one sheet with the seventeen columns in their
    fixed order and one cell per stored row in every column. *)
Theorem export_sends_the_dataset
    (timestamp : string) (to_excel : frame → result unit) (rows : list row) :
  (export_excel timestamp to_excel rows
   = ExportRefused (VDict [("error", VStr "No data to export")]) 400
   ↔ rows = []) ∧
  (rows ≠ [] →
   to_excel (DataFrame rows) = Ok tt →
   export_excel timestamp to_excel rows
   = SendFile ("results/invoice_extract_" +:+ timestamp +:+ ".xlsx")
              ("invoice_extract_" +:+ timestamp +:+ ".xlsx")
              "Invoice_Data" (DataFrame rows) ∧
   (DataFrame rows).*1 = column_names ∧
   Forall (λ col, length col.2 = length rows) (DataFrame rows)).
Proof.
  split.
  - split; [|by intros ->].
    destruct rows as [|r rows]; [reflexivity|]. unfold export_excel.
    by destruct (to_excel _).
  - intros Hne Hok. split; [|split].
    + destruct rows as [|r rows]; [done|]. unfold export_excel. by rewrite Hok.
    + reflexivity.
    + unfold DataFrame. repeat constructor; cbn [snd];
        by rewrite column_values_length, length_fmap.
Qed.

Lemma export_sends_the_dataset_witness :
  [header_row Sample.invoice_one [("quantity", VInt 2)]] ≠ [] ∧
  Sample2.accept_all (DataFrame [header_row Sample.invoice_one [("quantity", VInt 2)]])
  = Ok tt ∧
  export_excel "20240131_120000" Sample2.accept_all
    [header_row Sample.invoice_one [("quantity", VInt 2)]]
  = SendFile ("results/invoice_extract_" +:+ "20240131_120000" +:+ ".xlsx")
             ("invoice_extract_" +:+ "20240131_120000" +:+ ".xlsx")
             "Invoice_Data"
             (DataFrame [header_row Sample.invoice_one [("quantity", VInt 2)]]).
Proof.
  split; [discriminate|]. split; [reflexivity|].
  apply (proj2 (export_sends_the_dataset "20240131_120000" Sample2.accept_all
                  [header_row Sample.invoice_one [("quantity", VInt 2)]])
           ltac:(discriminate) eq_refl).
Defined.

Section ClearProperties.

Context (remove_fails : string → bool).

(** X15. [/clear] empties the dataset, so that [/data] then serves no record
    and [/export] is refused.  On disk it removes the files listed in the
    upload folder whose removal does not raise, and nothing else: a file
    outside the folder, in a sub-folder, or whose removal raises is kept
    with its size. *)
Theorem clear_empties_dataset_and_folder
    (timestamp : string) (to_excel : frame → result unit)
    (rows : list row) (dk : disk) (p : string) :
  (clear_data remove_fails rows dk).1.1 = Json (VDict [("success", VBool true)]) 200 ∧
  get_data (clear_data remove_fails rows dk).1.2
  = Json (VDict [("data", VList []); ("count", VInt 0)]) 200 ∧
  export_excel timestamp to_excel (clear_data remove_fails rows dk).1.2
  = ExportRefused (VDict [("error", VStr "No data to export")]) 400 ∧
  stored (clear_data remove_fails rows dk).2 !! p
  = (if in_upload_folder p && negb (remove_fails p) then None else stored dk !! p).
Proof.
  repeat split. cbn [clear_data snd stored]. apply option_eq. intros z.
  rewrite map_lookup_filter_Some. cbn [fst]. unfold survives.
  destruct (in_upload_folder p), (remove_fails p); cbn;
    (split; [by intros [? _] | by intros ?]) || (split; [by intros [_ ?] | done]).
Qed.

End ClearProperties.

Lemma strip_prefix_append (p s : string) : strip_prefix p (p +:+ s) = Some s.
Proof.
  induction p as [|c p IH]; [reflexivity|].
  rewrite append_cons. cbn [strip_prefix]. by rewrite Ascii.eqb_refl.
Qed.

Lemma has_slash_append (a b : string) :
  has_slash (a +:+ b) = has_slash a || has_slash b.
Proof.
  induction a as [|c a IH]; [reflexivity|].
  rewrite append_cons. cbn [has_slash]. by rewrite IH, orb_assoc.
Qed.

(** A stored path is listed in the upload folder when neither the
    identifier nor the sanitised name holds a slash. *)
Lemma stored_path_listed (uuid4 : nat → string) (n : nat) (name : string) :
  has_slash (uuid4 n) = false → has_slash name = false →
  in_upload_folder (stored_path uuid4 n name) = true.
Proof.
  intros Hid Hname. unfold in_upload_folder, stored_path.
  rewrite <- (append_assoc UPLOAD_FOLDER "/").
  rewrite strip_prefix_append, !has_slash_append, Hid, Hname.
  by destruct (uuid4 n).
Qed.

Section UploadThenClear.

Context (secure_filename : string → string) (uuid4 : nat → string)
        (remove_fails : string → bool).

Lemma upload_loop_paths (l : list file_storage) (dk : disk) (acc : list uploaded) :
  ∃ (dk' : disk) (new : list uploaded),
    foldl (upload_one secure_filename uuid4) (dk, acc) l = (dk', acc ++ new) ∧
    Forall (λ u, ∃ n f, path u = stored_path uuid4 n (secure_filename (filename f))) new.
Proof.
  revert dk acc. induction l as [|f l IH]; intros dk acc.
  - exists dk, []. by rewrite app_nil_r.
  - cbn [foldl]. unfold upload_one at 2. destruct (_ && _); [|apply IH].
    match goal with |- context [foldl _ (?d, ?a) l] =>
      destruct (IH d a) as (dk' & new & -> & Hnew) end.
    eexists dk', (_ :: new). rewrite <- app_assoc. split; [reflexivity|].
    constructor; [|exact Hnew]. by exists (drawn dk), f.
Qed.

(** X16. [/clear] undoes [/upload]: when sanitised names and identifiers hold
    no slash, every file an upload stored is gone after a clear, unless its
    removal raised. *)
Theorem clear_removes_uploaded_files
    (req : upload_request) (dk : disk) (rows : list row) :
  content_length req ≤ MAX_CONTENT_LENGTH →
  existsb (λ p, String.eqb p.1 "files[]") (files req) = true →
  (∀ s, has_slash (secure_filename s) = false) →
  (∀ n, has_slash (uuid4 n) = false) →
  ∃ (ups : list uploaded) (dk' : disk),
    upload_files secure_filename uuid4 req dk
    = (Json (VDict [("success", VBool true);
                    ("files", VList (uploaded_to_dict <$> ups));
                    ("count", VInt (Z.of_nat (length ups)))]) 200, dk') ∧
    Forall (λ u, remove_fails (path u) = false →
                 stored (clear_data remove_fails rows dk').2 !! path u = None) ups.
Proof.
  intros Hsmall Hfield Hname Hid. unfold upload_files.
  rewrite (proj2 (Z.ltb_ge _ _) Hsmall), Hfield. cbn [negb].
  destruct (upload_loop_paths (getlist "files[]" (files req)) dk [])
    as (dk' & ups & -> & Hpaths).
  exists ups, dk'. cbn [app]. split; [reflexivity|].
  eapply Forall_impl; [exact Hpaths|]. intros u (n & f & Hu) Hrm.
  cbn [clear_data snd stored]. apply map_lookup_filter_None. right.
  intros z _. cbn [fst]. unfold survives.
  by rewrite Hu, stored_path_listed, <- Hu, Hrm.
Qed.

End UploadThenClear.

(** ** The statistics: bounds *)

Lemma uniques_length (vals seen : list value) :
  (length (Pandas.uniques seen vals) ≤ length seen + length vals)%nat.
Proof.
  revert seen. induction vals as [|v vals IH]; intros seen; cbn [Pandas.uniques length].
  - lia.
  - destruct (existsb _ seen).
    + specialize (IH seen). lia.
    + specialize (IH (seen ++ [v])). rewrite length_app in IH. cbn [length] in IH. lia.
Qed.

(** X17. Whenever it is computed, [total_documents] lies between 0 and the
    number of rows (which is [total_line_items]). *)
Theorem total_documents_at_most_rows (rows : list row) (n : Z) :
  stat_total_documents rows = Ok n →
  0 ≤ n ≤ stat_total_line_items rows.
Proof.
  unfold stat_total_documents, stat_total_line_items, Pandas.nunique.
  destruct (df_empty rows) eqn:Hrows; cbn [negb].
  - intros [= <-]. lia.
  - destruct (forallb _ _); [|discriminate]. intros [= <-].
    pose proof (uniques_length
                  (List.filter (λ v, negb (Pandas.isna v))
                     (Pandas.column_values (Invoice_Number <$> rows))) []) as Hu.
    pose proof (filter_length_le (λ v, negb (Pandas.isna v))
                  (Pandas.column_values (Invoice_Number <$> rows))) as Hf.
    rewrite column_values_length, length_fmap in Hf. cbn [length] in Hu. lia.
Qed.

(** ** The command-line variant *)

Section KeepProperties.

Context (generate_text : value → result string)
        (json_loads : string → result value)
        (to_excel : frame → result unit)
        (str_len : value → result nat)
        (get_column_letter : nat → result string).

Local Abbreviation kextract := (Keep.extract_invoice_data generate_text json_loads).
Local Abbreviation kloop := (Keep.loop generate_text json_loads).
Local Abbreviation krun :=
  (Keep.process_multiple_invoices generate_text json_loads to_excel str_len
     get_column_letter).
Local Abbreviation run := (process_batch generate_text json_loads).

(** When the extraction of [keep.py] returns, it returns what the
    extraction of [app.py] returns. *)
Lemma keep_extract_agrees (f data : value) (printed : list keep_line) :
  kextract f = (Returned data, printed) →
  (extract_invoice_data generate_text json_loads f).1 = data.
Proof.
  unfold Keep.extract_invoice_data, extract_invoice_data.
  destruct (generate_text f) as [text|e]; cbn [mbind result_bind].
  - destruct (json_loads (clean_response text)) as [d|e]; [by intros [= <- _]|].
    by destruct e; intros [= <- _].
  - by destruct e; intros [= <- _].
Qed.

Lemma keep_loop_returned (paths : list value) (total idx : Z)
    (rows0 rows : list row) (out0 out : list keep_line) :
  kloop total idx paths rows0 out0 = (Returned rows, out) →
  rows = rows0 ++ all_rows (run paths).
Proof.
  revert idx rows0 out0. induction paths as [|f paths IH]; intros idx rows0 out0.
  - cbn. intros [= <- _]. by rewrite app_nil_r.
  - cbn [Keep.loop]. rewrite process_batch_cons. cbn [batch_app all_rows].
    destruct (kextract f) as [[data|x] printed] eqn:Hk; [|discriminate].
    apply keep_extract_agrees in Hk. unfold loop_body.
    destruct (extract_invoice_data generate_text json_loads f) as [data' printed'].
    cbn [fst] in Hk. subst data'.
    destruct (truthy data).
    + destruct (flatten_to_rows data) as [rs|e]; [|discriminate].
      intros Hloop%IH. cbn [all_rows empty_batch app]. by rewrite Hloop, app_assoc.
    + intros Hloop%IH. cbn [all_rows empty_batch app]. exact Hloop.
Qed.

(** X18. The two programs agree on the rows: when [process_multiple_invoices]
    returns, the frame it returns and saves is the frame of the rows the
    batch of [app.py] accumulates for the same files, under the sheet name
    [Invoice_Data] and at the path asked for; it returns [None], and saves
    nothing, exactly when the batch has no row.  The number it prints as
    documents processed is the number of files given, extracted or not. *)
Theorem keep_saves_the_rows_of_the_batch
    (paths : list value) (output_excel : string)
    (res : option frame) (out : list keep_line) (wb : option workbook) :
  krun paths output_excel = (Returned res, out, wb) →
  match res with
  | None => all_rows (run paths) = [] ∧ wb = None
  | Some df =>
      all_rows (run paths) ≠ [] ∧ df = DataFrame (all_rows (run paths)) ∧
      KDocuments (Z.of_nat (length paths)) ∈ out ∧
      ∃ widths, wb = Some {| book_path := output_excel; book_sheet := "Invoice_Data";
                             book_frame := df; book_widths := widths |}
  end.
Proof.
  unfold Keep.process_multiple_invoices.
  destruct (kloop _ 1 paths [] []) as [[rows|x] out1] eqn:Hloop; [|discriminate].
  apply keep_loop_returned in Hloop. cbn [app] in Hloop. subst rows.
  destruct (all_rows (run paths)) as [|r rows]; [by intros [= <- _ <-]|].
  destruct (to_excel _); [|discriminate].
  intros [= <- <- <-]. split; [discriminate|]. split; [reflexivity|].
  split; [|by eexists].
  apply elem_of_app. right. do 3 right. left.
Qed.



Lemma max_Z_nonneg (l : list Z) : 0 ≤ max_Z 0 l.
Proof. unfold max_Z. induction l as [|z l IH]; cbn [foldr]; lia. Qed.

(** X20. Every width that is set belongs to one column of the frame: the
    letter is the letter of the position of that column, counted from 1, and
    the width is at most 50 and not less than the length of the name of that
    column plus 2, unless that is beyond 50. *)
Theorem column_width_bounds (df : frame) (column_letter : string) (w : Z) :
  (column_letter, w) ∈ Keep.column_widths str_len get_column_letter df →
  ∃ (k : nat) (col : string * list value),
    df !! k = Some col ∧
    get_column_letter (S k) = Ok column_letter ∧
    Keep.adjusted_width str_len get_column_letter (S k) col = Ok (column_letter, w) ∧
    Z.min (Z.of_nat (String.length col.1) + 2) 50 ≤ w ≤ 50.
Proof.
  unfold Keep.column_widths. intros (p & Hp & Hw)%list_elem_of_omap.
  apply list_elem_of_lookup in Hp as (k & Hk).
  rewrite list_lookup_imap in Hk.
  destruct (df !! k) as [col|] eqn:Hcol; [|discriminate]. injection Hk as <-.
  exists k, col. split; [exact Hcol|].
  cbn [fst snd] in Hw.
  destruct (Keep.adjusted_width str_len get_column_letter (S k) col)
    as [cw|] eqn:Hwidth; [|discriminate].
  injection Hw as ->. unfold Keep.adjusted_width in Hwidth.
  destruct (get_column_letter (S k)) as [c|]; [|discriminate].
  cbn [mbind result_bind] in Hwidth.
  destruct (mapM str_len col.2) as [lens|]; [|discriminate].
  cbn [mbind result_bind] in Hwidth. injection Hwidth as -> <-.
  split; [reflexivity|]. split; [reflexivity|].
  pose proof (max_Z_nonneg (Z.of_nat <$> lens)). lia.
Qed.

End KeepProperties.

(** ** Instances of the further properties *)

Lemma upload_only_adds_witness :
  upload_files Sample.keep_name Sample.numbered Sample.oversize_upload Sample.empty_disk
  = (Abort 413, Sample.empty_disk) ∧
  (∀ b, Abort 413 ≠ Json b 200) ∧
  Sample.empty_disk = Sample.empty_disk ∧
  (Abort 413 = Abort 413 ∨
   Abort 413 = Json (VDict [("error", VStr "No files provided")]) 400).
Proof.
  split; [reflexivity|]. split; [discriminate|].
  apply (proj2 (proj2 (upload_only_adds Sample.keep_name Sample.numbered
                         Sample.oversize_upload Sample.empty_disk Sample.empty_disk
                         (Abort 413) eq_refl))).
  discriminate.
Defined.

Lemma two_identifiers_fresh :
  ∀ n m : nat,
    (0 ≤ n < 0 + 2)%nat → (0 ≤ m < 0 + 2)%nat →
    String.length (Sample.numbered n) = String.length (Sample.numbered m) ∧
    (Sample.numbered n = Sample.numbered m → n = m).
Proof.
  intros n m Hn Hm.
  assert (n = 0 ∨ n = 1)%nat as [-> | ->] by lia;
    assert (m = 0 ∨ m = 1)%nat as [-> | ->] by lia;
    (split; [reflexivity | intros H; (reflexivity || discriminate H)]).
Defined.

Lemma upload_paths_fresh_witness :
  content_length Sample2.two_pngs ≤ MAX_CONTENT_LENGTH ∧
  existsb (λ p, String.eqb p.1 "files[]") (files Sample2.two_pngs) = true ∧
  ∃ (ups : list uploaded) (dk' : disk),
    upload_files Sample.keep_name Sample.numbered Sample2.two_pngs Sample.empty_disk
    = (Json (VDict [("success", VBool true);
                    ("files", VList (uploaded_to_dict <$> ups));
                    ("count", VInt (Z.of_nat (length ups)))]) 200, dk') ∧
    NoDup (path <$> ups).
Proof.
  assert (content_length Sample2.two_pngs ≤ MAX_CONTENT_LENGTH) as Hsmall
    by (vm_compute; congruence).
  split; [exact Hsmall|]. split; [reflexivity|].
  destruct (upload_paths_fresh Sample.keep_name Sample.numbered Sample2.two_pngs
              Sample.empty_disk Hsmall eq_refl two_identifiers_fresh)
    as (ups & dk' & Hup & Hnodup & _).
  exists ups, dk'. split; [exact Hup | exact Hnodup].
Defined.

Lemma flat_name_no_slash (s : string) : has_slash (Sample2.flat_name s) = false.
Proof.
  induction s as [|c s IH]; [reflexivity|]. cbn [Sample2.flat_name has_slash].
  rewrite IH, orb_false_r. destruct (Ascii.eqb c "/") eqn:Hc; [reflexivity | exact Hc].
Defined.

Lemma tally_no_slash (n : nat) : has_slash (Sample2.tally n) = false.
Proof. induction n as [|n IH]; [reflexivity | exact IH]. Defined.

Lemma clear_removes_uploaded_files_witness :
  content_length Sample.mixed_upload ≤ MAX_CONTENT_LENGTH ∧
  existsb (λ p, String.eqb p.1 "files[]") (files Sample.mixed_upload) = true ∧
  ∃ (ups : list uploaded) (dk' : disk),
    upload_files Sample2.flat_name Sample2.tally Sample.mixed_upload Sample.empty_disk
    = (Json (VDict [("success", VBool true);
                    ("files", VList (uploaded_to_dict <$> ups));
                    ("count", VInt (Z.of_nat (length ups)))]) 200, dk') ∧
    Forall (λ u, stored (clear_data Sample2.never_fails [] dk').2 !! path u = None) ups.
Proof.
  assert (content_length Sample.mixed_upload ≤ MAX_CONTENT_LENGTH) as Hsmall
    by (vm_compute; congruence).
  split; [exact Hsmall|]. split; [reflexivity|].
  destruct (clear_removes_uploaded_files Sample2.flat_name Sample2.tally
              Sample2.never_fails Sample.mixed_upload Sample.empty_disk []
              Hsmall eq_refl flat_name_no_slash tally_no_slash)
    as (ups & dk' & Hup & Hgone).
  exists ups, dk'. split; [exact Hup|].
  eapply Forall_impl; [exact Hgone|]. intros u Hu. by apply Hu.
Defined.

Lemma total_documents_at_most_rows_witness :
  stat_total_documents
    [header_row [("invoice_number", VStr "A")] [];
     header_row [("invoice_number", VStr "B")] [];
     header_row [("invoice_number", VStr "A")] []] = Ok 2 ∧
  0 ≤ 2 ≤ stat_total_line_items
            [header_row [("invoice_number", VStr "A")] [];
             header_row [("invoice_number", VStr "B")] [];
             header_row [("invoice_number", VStr "A")] []].
Proof.
  split; [reflexivity|].
  apply (total_documents_at_most_rows
           [header_row [("invoice_number", VStr "A")] [];
            header_row [("invoice_number", VStr "B")] [];
            header_row [("invoice_number", VStr "A")] []] 2 eq_refl).
Defined.

Lemma keep_saves_the_rows_of_the_batch_witness :
  ∃ (df : frame) (out : list keep_line) (wb : option workbook),
    Keep.process_multiple_invoices Sample.three_files Sample.decode Sample2.accept_all
      Sample2.text_length Sample2.letter
      [VStr "uploads/1.png"; VStr "uploads/2.png"] "extracted_invoices.xlsx"
    = (Returned (Some df), out, wb) ∧
    df = DataFrame (all_rows (process_batch Sample.three_files Sample.decode
                                [VStr "uploads/1.png"; VStr "uploads/2.png"])) ∧
    KDocuments 2 ∈ out.
Proof.
  destruct (Keep.process_multiple_invoices Sample.three_files Sample.decode
              Sample2.accept_all Sample2.text_length Sample2.letter
              [VStr "uploads/1.png"; VStr "uploads/2.png"] "extracted_invoices.xlsx")
    as [[[[df|]|x] out] wb] eqn:Hrun;
    [|vm_compute in Hrun; discriminate Hrun..].
  exists df, out, wb. split; [reflexivity|].
  destruct (keep_saves_the_rows_of_the_batch Sample.three_files Sample.decode
              Sample2.accept_all Sample2.text_length Sample2.letter _ _ _ _ _ Hrun)
    as (_ & Hdf & Hdocs & _).
  split; [exact Hdf | exact Hdocs].
Defined.


Lemma column_width_bounds_witness :
  ("B", 9) ∈ Keep.column_widths Sample2.text_length Sample2.letter
               [("Quantity", [VInt 1]); ("Part", [VStr "bolt M8"])] ∧
  ∃ (k : nat) (col : string * list value),
    [("Quantity", [VInt 1]); ("Part", [VStr "bolt M8"])] !! k = Some col ∧
    Sample2.letter (S k) = Ok "B" ∧
    Keep.adjusted_width Sample2.text_length Sample2.letter (S k) col = Ok ("B", 9) ∧
    Z.min (Z.of_nat (String.length col.1) + 2) 50 ≤ 9 ≤ 50.
Proof.
  assert (("B", 9) ∈ Keep.column_widths Sample2.text_length Sample2.letter
                       [("Quantity", [VInt 1]); ("Part", [VStr "bolt M8"])]) as Hin
    by (vm_compute; right; left).
  split; [exact Hin|].
  exact (column_width_bounds Sample2.text_length Sample2.letter _ _ _ Hin).
Defined.
